(** * Payroll engine of the payroll-management-system backend

    A shallow embedding of [backend/controllers/payrollController.js]:
    the calculator ([calculatePayroll], [calculateTax], [getWorkingDays])
    and the record lifecycle ([generatePayroll], [approvePayroll],
    [rejectPayroll], [generateBulkPayroll]), together with what the
    Mongoose models of the repository ([models/Payroll.js],
    [models/AuditLog.js], [models/Employee.js]) decide about the documents
    that these handlers find and save, and of [utils/pagination.js].

    Modelling conventions.
    - A JavaScript number that holds money, hours or a rate is a rational
      ([Q]); the arithmetic is the exact one, rounding of binary floating
      point is outside the model.  Results are compared with [==].
    - A [Date] is its time value, a number of milliseconds since the epoch
      ([Z]).  The server's time zone is taken to be UTC, so local midnight
      is a multiple of [msPerDay] and a day has no daylight-saving shift.
      [newDate] is the arithmetic of a valid [Date]; the range limit of
      [Date] is stated apart ([validDate]), and what is said of every
      month and year is said of the periods whose two bounds are valid.
    - A Mongo collection is the list of its documents, in insertion order.
      A stored document has the paths of its schema and no others: the
      schemas are strict, so what a controller passes or assigns under
      another name is dropped.
    - Of a payroll document and of an audit log entry the model keeps the
      paths that the handlers set and that decide their outcome; [save]
      validates these as the schema says.  The validators of the other
      paths, the [pre('save')] hook of the payroll schema and the two
      settings of Mongoose that changed between its versions
      ([strictQuery], [strictPopulate]) are the [Mongoose] parameter of the
      handlers, about which nothing is assumed.
    - A thrown exception is the [Throws] outcome of a computation; a
      handler returns the response it sends and the database it leaves. *)

From Stdlib Require Import ZArith QArith Qround Qminmax List Bool String Lia Lqa.
Import ListNotations.

Local Open Scope Z_scope.

(** ** JavaScript values *)

Module JS.

(** [x || 0] on an optional number: [undefined], [null], [NaN] and [0]
    all give [0]; any other number is kept. *)
Definition orZero (x : option Q) : Q :=
  match x with
  | Some q => q
  | None => 0%Q
  end.

Definition Math_max (a b : Q) : Q := Qmax a b.
Definition Math_min (a b : Q) : Q := Qmin a b.
Definition Math_ceil (q : Q) : Z := Qceiling q.

(** [1000 * 60 * 60 * 24] *)
Definition msPerDay : Z := 1000 * 60 * 60 * 24.

(** ECMAScript [DaysInYear]. *)
Definition DaysInYear (y : Z) : Z :=
  if negb (y mod 4 =? 0) then 365
  else if negb (y mod 100 =? 0) then 366
  else if negb (y mod 400 =? 0) then 365
  else 366.

Definition InLeapYear (y : Z) : Z := DaysInYear y - 365.

(** ECMAScript [DayFromYear]: the day number of 1 January of year [y]. *)
Definition DayFromYear (y : Z) : Z :=
  365 * (y - 1970) + (y - 1969) / 4 - (y - 1901) / 100 + (y - 1601) / 400.

(** Days from 1 January to the first day of month [mn] (0 = January). *)
Definition monthOffset (mn : Z) (leap : Z) : Z :=
  match mn with
  | 0 => 0
  | 1 => 31
  | 2 => 59 + leap
  | 3 => 90 + leap
  | 4 => 120 + leap
  | 5 => 151 + leap
  | 6 => 181 + leap
  | 7 => 212 + leap
  | 8 => 243 + leap
  | 9 => 273 + leap
  | 10 => 304 + leap
  | _ => 334 + leap
  end.

(** ECMAScript [MakeDay]: a month index outside 0..11 carries into the
    year, a day of the month outside the month carries into the
    neighbouring month. *)
Definition MakeDay (year month date : Z) : Z :=
  let ym := year + month / 12 in
  let mn := month mod 12 in
  DayFromYear ym + monthOffset mn (InLeapYear ym) + date - 1.

(** [new Date(year, monthIndex, date)]: a year 0..99 means 1900 + year. *)
Definition newDate (year monthIndex date : Z) : Z :=
  let yr := if (0 <=? year) && (year <=? 99) then 1900 + year else year in
  MakeDay yr monthIndex date * msPerDay.

(** [Date.prototype.getDay]: 0 is Sunday, 6 is Saturday; day 0 of the
    epoch was a Thursday. *)
Definition getDay (t : Z) : Z := (t / msPerDay + 4) mod 7.

(** [d.setDate(d.getDate() + 1)]: the same time on the next day. *)
Definition nextDay (t : Z) : Z := t + msPerDay.

(** A computation that may throw. *)
Inductive Error : Type :=
  | TypeError (message : string)
  | MongoServerError (message : string)
  | ValidationError (model : string) (paths : list string)
  | MongooseError (message : string).

(** [error.message]; of a validation error only the head of the text, the
    list of paths and reasons that follows it is not written out. *)
Definition message (e : Error) : string :=
  match e with
  | TypeError m => m
  | MongoServerError m => m
  | ValidationError model _ => String.append model " validation failed"
  | MongooseError m => m
  end.

Inductive Result (A : Type) : Type :=
  | Returns (a : A)
  | Throws (e : Error).

Arguments Returns {A} a.
Arguments Throws {A} e.

End JS.

Import JS.

(** ** Documents *)

Definition ObjectId := Z.

Record Allowances : Type := {
  hra : option Q;
  transport : option Q;
  medical : option Q;
  food : option Q;
  other : option Q
}.

Record DeductionConfig : Type := {
  professional : option Q;
  otherDeduction : option Q
}.

Record Salary : Type := {
  basic : option Q;
  allowances : option Allowances;
  deductions : option DeductionConfig
}.

Record LeaveBalance : Type := {
  annual : option Q
}.

(** [employmentStatus] of the Employee schema. *)
Inductive EmployeeStatus : Type := active | inactive | terminated | on_leave.

Record Employee : Type := {
  e_id : ObjectId;
  employmentStatus : EmployeeStatus;
  e_department : option ObjectId;
  salary : option Salary;
  leaveBalance : option LeaveBalance
}.

Record Attendance : Type := {
  a_employee : ObjectId;
  a_date : Z;
  checkInTime : option Z;
  checkOutTime : option Z;
  hoursWorked : option Q
}.

Inductive LeaveStatus : Type :=
  | leave_pending | leave_approved | leave_rejected | leave_cancelled.

Record Leave : Type := {
  l_employee : ObjectId;
  l_status : LeaveStatus;
  startDate : Z;
  endDate : Z;
  days : Z
}.

(** The object [calculatePayroll] returns. *)
Record PayrollAllowances : Type := {
  pa_hra : Q;
  pa_transport : Q;
  pa_medical : Q;
  pa_food : Q;
  pa_other : Q
}.

Record PayrollDeductions : Type := {
  tax : Q;
  pf : Q;
  esi : Q;
  d_professional : Q;
  d_other : Q;
  unpaidLeave : Q
}.

Record PayrollData : Type := {
  basicSalary : Q;
  pd_allowances : PayrollAllowances;
  pd_deductions : PayrollDeductions;
  overtimeHours : Q;
  overtimeAmount : Q;
  grossPay : Q;
  netPay : Q;
  taxAmount : Q;
  attendanceDays : Z;
  workingDays : Z;
  leaveDays : Z
}.

(** A payroll document, as the Payroll schema shapes it.  The model keeps
    the paths of the schema that the controller sets when it builds or
    approves a document ([employee], [deductions.tax], [deductions.other],
    [status], [updatedBy], [updatedAt]) and those that the schema requires
    where the controller passes the same thing under a name that is no
    path ([payrollPeriod.*] for [month], [year] and [payPeriod],
    [createdBy] for [generatedBy]).  A required path that is not set is
    [None].  The other paths ([salaryStructure], [workingDays],
    [workingHours], [calculations], ...) are not held. *)
Record Payroll : Type := {
  p_id : ObjectId;
  p_employee : ObjectId;
  payrollPeriod_year : option Z;
  payrollPeriod_month : option Z;
  payrollPeriod_startDate : option Z;
  payrollPeriod_endDate : option Z;
  deductions_tax : Q;
  deductions_other : Q;
  p_status : string;
  createdBy : option ObjectId;
  updatedBy : option ObjectId;
  updatedAt : option Z
}.

(** The object a handler passes to [AuditLog.createLog]: [user], [action],
    [resource.type], [resource.id], [request.method] and
    [response.statusCode].  The texts ([resource.name], [request.url],
    [request.ipAddress], [response.message]) are not held. *)
Record AuditLog : Type := {
  al_user : ObjectId;
  al_action : string;
  resource_type : string;
  resource_id : option ObjectId;
  request_method : string;
  response_statusCode : Z
}.

Record DB : Type := {
  employees : list Employee;
  attendances : list Attendance;
  leaves : list Leave;
  payrolls : list Payroll
}.

(** ** Mongoose

    What of Mongoose and of the schemas the model does not hold.
    - [strictQuery]: whether a condition of a filter on a path that the
      schema does not have is dropped (the default of Mongoose 6) or reaches
      the server (the default before and after).
    - [strictPopulate]: whether [populate] of a path that the schema does
      not have throws (Mongoose 6 and later) or does nothing.
    - [Payroll_rest]: what [save] of a payroll document raises beyond the
      validators written out in [Payroll_validate]: the validators of the
      paths that the model does not hold, and the [pre('save')] hook.
    - [AuditLog_rest]: the same for an audit log entry.
    The repository pins no version of Mongoose, and nothing is assumed
    about these four. *)
Record Mongoose : Type := {
  strictQuery : bool;
  strictPopulate : bool;
  Payroll_rest : DB -> Payroll -> option Error;
  AuditLog_rest : AuditLog -> option Error
}.

(** ** Queries *)

Definition Employee_findById (db : DB) (id : ObjectId) : option Employee :=
  find (fun e => e_id e =? id) (employees db).

(** [Attendance.find({ employee, date: { $gte, $lte }, checkInTime: { $ne: null } })] *)
Definition Attendance_find (db : DB) (employeeId : ObjectId) (startD endD : Z)
  : list Attendance :=
  filter (fun a =>
            (a_employee a =? employeeId)
            && (startD <=? a_date a) && (a_date a <=? endD)
            && match checkInTime a with Some _ => true | None => false end)
         (attendances db).

(** [Leave.find({ employee, status: 'approved', startDate: { $lte: endDate },
    endDate: { $gte: startDate } })] *)
Definition Leave_find (db : DB) (employeeId : ObjectId) (startD endD : Z)
  : list Leave :=
  filter (fun l =>
            (l_employee l =? employeeId)
            && match l_status l with leave_approved => true | _ => false end
            && (startDate l <=? endD) && (startD <=? endDate l))
         (leaves db).

(** [Payroll.findOne({ employee, month, year })], for a [month] and a
    [year] that are not [null] (the handlers test both before).  [month]
    and [year] are no paths of the Payroll schema.  With [strictQuery]
    their two conditions are dropped and the query finds the first payroll
    of the employee, of whatever period; without it they reach the server,
    where no stored document has a [month] or a [year], and nothing is
    found. *)
Definition Payroll_findOne (m : Mongoose) (db : DB) (employeeId : ObjectId) (month year : Z)
  : option Payroll :=
  if strictQuery m
  then find (fun p => p_employee p =? employeeId) (payrolls db)
  else None.

(** [Payroll.findById(id)], for an [id] that is a well-formed ObjectId. *)
Definition Payroll_findById (db : DB) (id : ObjectId) : option Payroll :=
  find (fun p => p_id p =? id) (payrolls db).

(** [Employee.find({ status: 'active', department? })].  [status] is no
    path of the Employee schema (the schema has [employmentStatus] and
    [isActive]); [department] is one.  With [strictQuery] the condition on
    [status] is dropped and the query finds every employee (of the
    department); without it the condition reaches the server, where no
    stored employee has a [status], and nothing is found. *)
Definition Employee_find (m : Mongoose) (db : DB) (departmentId : option ObjectId)
  : list Employee :=
  if strictQuery m
  then filter (fun e =>
                 match departmentId with
                 | None => true
                 | Some d =>
                     match e_department e with
                     | Some d' => d' =? d
                     | None => false
                     end
                 end)
              (employees db)
  else [].

(** ** The calculator *)

(** [calculateTax] *)
Definition calculateTax (grossPay : Q) : Q :=
  let annualIncome := (grossPay * 12)%Q in
  let tax :=
    if Qle_bool annualIncome 250000 then 0%Q
    else if Qle_bool annualIncome 500000 then ((annualIncome - 250000) * (5 # 100))%Q
    else if Qle_bool annualIncome 1000000 then (12500 + (annualIncome - 500000) * (20 # 100))%Q
    else (112500 + (annualIncome - 1000000) * (30 # 100))%Q in
  (tax / 12)%Q.

(** The [while (currentDate <= endDate)] loop of [getWorkingDays]; [fuel]
    bounds the number of iterations. *)
Fixpoint getWorkingDays_loop (fuel : nat) (currentDate endD : Z) (workingDays : Z) : Z :=
  match fuel with
  | O => workingDays
  | S fuel' =>
      if currentDate <=? endD then
        let dayOfWeek := getDay currentDate in
        let workingDays' :=
          if negb (dayOfWeek =? 0) && negb (dayOfWeek =? 6)
          then workingDays + 1 else workingDays in
        getWorkingDays_loop fuel' (nextDay currentDate) endD workingDays'
      else workingDays
  end.

(** [getWorkingDays]: the loop runs once per day from [startDate] to
    [endDate], which is the fuel it is given. *)
Definition getWorkingDays (startD endD : Z) : Z :=
  getWorkingDays_loop (Z.to_nat ((endD - startD) / msPerDay + 1)) startD endD 0.

(** The body of [leaveRecords.forEach]: the days of one leave that the
    period keeps. *)
Definition leaveDaysOf (startD endD : Z) (leave : Leave) : Z :=
  let leaveStart := Z.max (startDate leave) startD in
  let leaveEnd := Z.min (endDate leave) endD in
  Math_ceil (inject_Z (leaveEnd - leaveStart) / inject_Z msPerDay) + 1.

(** The reducer of [attendanceRecords.reduce]. *)
Definition overtimeOf (total : Q) (record : Attendance) : Q :=
  (total + Math_max 0 (orZero (hoursWorked record) - 8))%Q.

Definition sumValues (values : list Q) : Q :=
  fold_left (fun sum amount => (sum + amount)%Q) values 0%Q.

(** The arithmetic of [calculatePayroll], from "Basic salary calculation"
    to the returned object: what the employee document, the three counts
    and the overtime hours determine.  [calculatePayroll] calls it with the
    working days of a calendar month, which are at least 20
    ([getWorkingDays_month]), so both rates divide by a positive number. *)
Definition payrollData (employee : Employee) (workingDays attendanceDays leaveDays : Z)
    (overtimeHours : Q) : PayrollData :=
  let sal := salary employee in
  let basicSalary := orZero (match sal with Some s => basic s | None => None end) in
  let dailyRate := (basicSalary / inject_Z workingDays)%Q in
  let allow := match sal with Some s => allowances s | None => None end in
  let allowance (field : Allowances -> option Q) :=
    orZero (match allow with Some a => field a | None => None end) in
  let allowances :=
    {| pa_hra := allowance hra;
       pa_transport := allowance transport;
       pa_medical := allowance medical;
       pa_food := allowance food;
       pa_other := allowance other |} in
  let totalAllowances :=
    sumValues [pa_hra allowances; pa_transport allowances; pa_medical allowances;
               pa_food allowances; pa_other allowances] in
  let hourlyRate := (basicSalary / (inject_Z workingDays * 8))%Q in
  let overtimeAmount := (overtimeHours * hourlyRate * (15 # 10))%Q in
  let grossPay := (basicSalary + totalAllowances + overtimeAmount)%Q in
  let ded := match sal with Some s => deductions s | None => None end in
  let deduction (field : DeductionConfig -> option Q) :=
    orZero (match ded with Some d => field d | None => None end) in
  let unpaidLeaveDays :=
    Math_max 0 (inject_Z leaveDays
                - orZero (match leaveBalance employee with
                          | Some lb => annual lb
                          | None => None
                          end)) in
  let deductions :=
    {| tax := calculateTax grossPay;
       pf := Math_min (grossPay * (12 # 100)) 1800;
       esi := if Qle_bool grossPay 21000 then (grossPay * (75 # 10000))%Q else 0%Q;
       d_professional := deduction professional;
       d_other := deduction otherDeduction;
       unpaidLeave := (unpaidLeaveDays * dailyRate)%Q |} in
  let totalDeductions :=
    sumValues [tax deductions; pf deductions; esi deductions;
               d_professional deductions; d_other deductions;
               unpaidLeave deductions] in
  let netPay := (grossPay - totalDeductions)%Q in
  {| basicSalary := basicSalary;
     pd_allowances := allowances;
     pd_deductions := deductions;
     overtimeHours := overtimeHours;
     overtimeAmount := overtimeAmount;
     grossPay := grossPay;
     netPay := netPay;
     taxAmount := tax deductions;
     attendanceDays := attendanceDays;
     workingDays := workingDays;
     leaveDays := leaveDays |}.

(** [calculatePayroll]: the queries, then the arithmetic.  The employee
    document is first dereferenced after the queries; a missing employee
    is [null] there and the access throws. *)
Definition calculatePayroll (db : DB) (employeeId : ObjectId) (month year : Z)
  : Result PayrollData :=
  let employee := Employee_findById db employeeId in
  let startD := newDate year (month - 1) 1 in
  let endD := newDate year month 0 in
  let workingDays := getWorkingDays startD endD in
  let attendanceRecords := Attendance_find db employeeId startD endD in
  let attendanceDays := Z.of_nat (List.length attendanceRecords) in
  let leaveRecords := Leave_find db employeeId startD endD in
  let leaveDays :=
    fold_left (fun leaveDays leave => leaveDays + leaveDaysOf startD endD leave)
              leaveRecords 0 in
  let overtimeHours := fold_left overtimeOf attendanceRecords 0%Q in
  match employee with
  | None => Throws (TypeError "Cannot read properties of null (reading 'salary')")
  | Some employee =>
      Returns (payrollData employee workingDays attendanceDays leaveDays overtimeHours)
  end.

(** ** Responses ([utils/response.js]) *)

Record Response (A : Type) : Type := {
  statusCode : Z;
  success : bool;
  r_message : string;
  data : option A
}.

Arguments statusCode {A} _.
Arguments success {A} _.
Arguments r_message {A} _.
Arguments data {A} _.

Definition successResponse {A} (d : A) (msg : string) : Response A :=
  {| statusCode := 200; success := true; r_message := msg; data := Some d |}.

Definition createdResponse {A} (d : A) (msg : string) : Response A :=
  {| statusCode := 201; success := true; r_message := msg; data := Some d |}.

Definition errorResponse {A} (msg : string) (code : Z) : Response A :=
  {| statusCode := code; success := false; r_message := msg; data := None |}.

Definition badRequestResponse {A} (msg : string) : Response A := errorResponse msg 400.

Definition notFoundResponse {A} (msg : string) : Response A := errorResponse msg 404.


(** ** The schemas *)

Definition isIn (s : string) (values : list string) : bool :=
  existsb (String.eqb s) values.

(** A path that is [required]. *)
Definition required {A : Type} (path : string) (value : option A) : list string :=
  match value with
  | Some _ => []
  | None => [path]
  end.

(** A path with an [enum]. *)
Definition enum (path : string) (values : list string) (value : string) : list string :=
  if isIn value values then [] else [path].

(** A number with [min: 0]. *)
Definition min0 (path : string) (value : Q) : list string :=
  if Qle_bool 0 value then [] else [path].

(** [status] of the Payroll schema. *)
Definition payrollStatusEnum : list string :=
  ["draft"; "calculated"; "approved"; "paid"; "cancelled"]%string.

(** The validators of the Payroll schema on the paths of the model: the
    paths that fail. *)
Definition Payroll_validate (doc : Payroll) : list string :=
  required "payrollPeriod.year" (payrollPeriod_year doc)
  ++ match payrollPeriod_month doc with
     | None => ["payrollPeriod.month"%string]
     | Some month =>
         if (1 <=? month) && (month <=? 12) then [] else ["payrollPeriod.month"%string]
     end
  ++ required "payrollPeriod.startDate" (payrollPeriod_startDate doc)
  ++ required "payrollPeriod.endDate" (payrollPeriod_endDate doc)
  ++ min0 "deductions.tax" (deductions_tax doc)
  ++ min0 "deductions.other" (deductions_other doc)
  ++ enum "status" payrollStatusEnum (p_status doc)
  ++ required "createdBy" (createdBy doc).

(** [action], [resource.type] and [request.method] of the AuditLog
    schema. *)
Definition auditActionEnum : list string :=
  ["login"; "logout"; "login_failed"; "password_change"; "profile_update";
   "employee_create"; "employee_update"; "employee_delete"; "employee_view";
   "department_create"; "department_update"; "department_delete";
   "attendance_checkin"; "attendance_checkout"; "attendance_update"; "attendance_approve";
   "leave_apply"; "leave_approve"; "leave_reject"; "leave_cancel"; "leave_update";
   "payroll_calculate"; "payroll_approve"; "payroll_generate"; "payroll_pay";
   "settings_update"; "backup_create"; "backup_restore"; "system_maintenance";
   "report_generate"; "report_export"; "file_upload"; "file_delete"]%string.

Definition auditResourceEnum : list string :=
  ["user"; "employee"; "department"; "attendance"; "leave"; "payroll"; "system";
   "report"; "file"]%string.

Definition requestMethodEnum : list string :=
  ["GET"; "POST"; "PUT"; "DELETE"; "PATCH"]%string.

(** The validators of the AuditLog schema on the paths of the model;
    [resource.id] is required unless the resource is the system. *)
Definition AuditLog_validate (log : AuditLog) : list string :=
  enum "action" auditActionEnum (al_action log)
  ++ enum "resource.type" auditResourceEnum (resource_type log)
  ++ (if String.eqb (resource_type log) "system" then []
      else required "resource.id" (resource_id log))
  ++ enum "request.method" requestMethodEnum (request_method log).

(** [AuditLog.createLog]: [new this(logData)], [calculateRiskScore], which
    reads the entry only, and [save].  The collection of the entries is
    not part of the database of the model: no handler reads it. *)
Definition AuditLog_createLog (m : Mongoose) (log : AuditLog) : Result unit :=
  match AuditLog_validate log with
  | _ :: _ as paths => Throws (ValidationError "AuditLog" paths)
  | [] =>
      match AuditLog_rest m log with
      | Some error => Throws error
      | None => Returns tt
      end
  end.

(** ** The payroll collection *)

Definition withPayrolls (db : DB) (docs : list Payroll) : DB :=
  {| employees := employees db;
     attendances := attendances db;
     leaves := leaves db;
     payrolls := docs |}.

(** The [_id] of a new document: one that no stored document carries. *)
Definition freshId (docs : list Payroll) : ObjectId :=
  fold_right Z.max 0 (map p_id docs) + 1.

Definition sameOption (a b : option Z) : bool :=
  match a, b with
  | Some x, Some y => x =? y
  | None, None => true
  | _, _ => false
  end.

(** The key of the unique index
    [{ employee: 1, 'payrollPeriod.year': 1, 'payrollPeriod.month': 1 }]. *)
Definition samePeriod (a b : Payroll) : bool :=
  (p_employee a =? p_employee b)
  && sameOption (payrollPeriod_year a) (payrollPeriod_year b)
  && sameOption (payrollPeriod_month a) (payrollPeriod_month b).

(** [payroll.save()]: validation first, then the [pre('save')] hook, then
    the write.  A document that is stored under its [_id] is replaced; a
    new one is appended unless the unique index refuses it. *)
Definition Payroll_save (m : Mongoose) (db : DB) (doc : Payroll) : Result DB :=
  match Payroll_validate doc with
  | _ :: _ as paths => Throws (ValidationError "Payroll" paths)
  | [] =>
      match Payroll_rest m db doc with
      | Some error => Throws error
      | None =>
          if existsb (fun p => p_id p =? p_id doc) (payrolls db)
          then Returns
                 (withPayrolls db
                    (map (fun p => if p_id p =? p_id doc then doc else p) (payrolls db)))
          else if existsb (samePeriod doc) (payrolls db)
          then Throws (MongoServerError "E11000 duplicate key error collection: payrolls")
          else Returns (withPayrolls db (payrolls db ++ [doc]))
      end
  end.

(** [new Payroll({ employee, month, year, payPeriod, basicSalary,
    allowances, deductions, ..., status: 'pending', generatedBy,
    generatedDate })].  Of what the controller passes, [employee],
    [deductions.tax], [deductions.other] and [status] are paths of the
    schema.  The rest is dropped, so the required [payrollPeriod.*] and
    [createdBy] stay unset. *)
Definition newPayroll (db : DB) (employeeId : ObjectId) (payrollData : PayrollData)
  : Payroll :=
  {| p_id := freshId (payrolls db);
     p_employee := employeeId;
     payrollPeriod_year := None;
     payrollPeriod_month := None;
     payrollPeriod_startDate := None;
     payrollPeriod_endDate := None;
     deductions_tax := tax (pd_deductions payrollData);
     deductions_other := d_other (pd_deductions payrollData);
     p_status := "pending";
     createdBy := None;
     updatedBy := None;
     updatedAt := None |}.

(** The assignments of [approvePayroll] and [rejectPayroll] to the loaded
    document.  [status], [updatedBy] and [updatedAt] are paths of the
    schema; [approvedBy], [approvedDate] and [approverComments] are not,
    and what is assigned to them is neither saved nor sent. *)
Definition stamp (payroll : Payroll) (status : string) (userId : ObjectId) (now : Z)
  : Payroll :=
  {| p_id := p_id payroll;
     p_employee := p_employee payroll;
     payrollPeriod_year := payrollPeriod_year payroll;
     payrollPeriod_month := payrollPeriod_month payroll;
     payrollPeriod_startDate := payrollPeriod_startDate payroll;
     payrollPeriod_endDate := payrollPeriod_endDate payroll;
     deductions_tax := deductions_tax payroll;
     deductions_other := deductions_other payroll;
     p_status := status;
     createdBy := createdBy payroll;
     updatedBy := Some userId;
     updatedAt := Some now |}.

(** The entry a payroll handler logs. *)
Definition auditEntry (userId : ObjectId) (action : string) (id : option ObjectId)
    (method : string) (statusCode : Z) : AuditLog :=
  {| al_user := userId;
     al_action := action;
     resource_type := "payroll";
     resource_id := id;
     request_method := method;
     response_statusCode := statusCode |}.

(** ** The handlers *)

(** [req.body] and [req.user._id] of [generatePayroll]; a [month] or
    [year] that is missing or [0] is falsy. *)
Record GenerateRequest : Type := {
  body_employeeId : option ObjectId;
  body_month : Z;
  body_year : Z;
  g_user : ObjectId
}.

(** [generatePayroll].  Between the save and the audit entry the handler
    populates [employee] and [employee.department], which are paths of the
    schemas. *)
Definition generatePayroll (m : Mongoose) (req : GenerateRequest) (db : DB)
  : Response Payroll * DB :=
  let month := body_month req in
  let year := body_year req in
  let userId := g_user req in
  match body_employeeId req with
  | None => (badRequestResponse "Employee ID, month, and year are required", db)
  | Some employeeId =>
      if (month =? 0) || (year =? 0)
      then (badRequestResponse "Employee ID, month, and year are required", db)
      else
        match Employee_findById db employeeId with
        | None => (notFoundResponse "Employee not found", db)
        | Some _ =>
            match Payroll_findOne m db employeeId month year with
            | Some _ => (badRequestResponse "Payroll for this month already exists", db)
            | None =>
                match calculatePayroll db employeeId month year with
                | Throws _ => (errorResponse "Failed to generate payroll" 500, db)
                | Returns payrollData =>
                    let payroll := newPayroll db employeeId payrollData in
                    match Payroll_save m db payroll with
                    | Throws _ => (errorResponse "Failed to generate payroll" 500, db)
                    | Returns db' =>
                        match AuditLog_createLog m
                                (auditEntry userId "payroll_generate" (Some (p_id payroll))
                                            "POST" 201) with
                        | Throws _ => (errorResponse "Failed to generate payroll" 500, db')
                        | Returns _ =>
                            (createdResponse payroll "Payroll generated successfully", db')
                        end
                    end
                end
            end
        end
  end.

(** [req.params], [req.user._id] and the clock of [approvePayroll] and
    [rejectPayroll]. *)
Record ApprovalRequest : Type := {
  params_id : ObjectId;
  a_user : ObjectId;
  a_now : Z
}.

(** What follows [payroll.save()] in [approvePayroll] and [rejectPayroll]:
    [populate('approvedBy')] of a path that the schema does not have, the
    name of the audit entry, which reads [payroll.employee.firstName] of
    the employee that [findById(id).populate('employee')] loaded ([null]
    when that employee is gone), and the audit entry. *)
Definition afterSave (m : Mongoose) (db : DB) (payroll : Payroll) (action : string)
    (userId : ObjectId) : Result unit :=
  if strictPopulate m
  then Throws (MongooseError "Cannot populate path `approvedBy` because it is not in your schema")
  else
    match Employee_findById db (p_employee payroll) with
    | None => Throws (TypeError "Cannot read properties of null (reading 'firstName')")
    | Some _ =>
        AuditLog_createLog m (auditEntry userId action (Some (p_id payroll)) "PUT" 200)
    end.

(** [approvePayroll] *)
Definition approvePayroll (m : Mongoose) (req : ApprovalRequest) (db : DB)
  : Response Payroll * DB :=
  match Payroll_findById db (params_id req) with
  | None => (notFoundResponse "Payroll record not found", db)
  | Some payroll =>
      if String.eqb (p_status payroll) "approved"
      then (badRequestResponse "Payroll is already approved", db)
      else
        let payroll' := stamp payroll "approved" (a_user req) (a_now req) in
        match Payroll_save m db payroll' with
        | Throws _ => (errorResponse "Failed to approve payroll" 500, db)
        | Returns db' =>
            match afterSave m db payroll' "payroll_approve" (a_user req) with
            | Throws _ => (errorResponse "Failed to approve payroll" 500, db')
            | Returns _ => (successResponse payroll' "Payroll approved successfully", db')
            end
        end
  end.

(** [rejectPayroll] *)
Definition rejectPayroll (m : Mongoose) (req : ApprovalRequest) (db : DB)
  : Response Payroll * DB :=
  match Payroll_findById db (params_id req) with
  | None => (notFoundResponse "Payroll record not found", db)
  | Some payroll =>
      if negb (String.eqb (p_status payroll) "pending")
      then (badRequestResponse "Payroll has already been processed", db)
      else
        let payroll' := stamp payroll "rejected" (a_user req) (a_now req) in
        match Payroll_save m db payroll' with
        | Throws _ => (errorResponse "Failed to reject payroll" 500, db)
        | Returns db' =>
            match afterSave m db payroll' "payroll_reject" (a_user req) with
            | Throws _ => (errorResponse "Failed to reject payroll" 500, db')
            | Returns _ => (successResponse payroll' "Payroll rejected successfully", db')
            end
        end
  end.

(** [req.body] and [req.user._id] of [generateBulkPayroll]. *)
Record BulkRequest : Type := {
  bulk_month : Z;
  bulk_year : Z;
  bulk_departmentId : option ObjectId;
  b_user : ObjectId
}.

Record BulkResults : Type := {
  successful : list (Employee * Payroll);
  failed : list (Employee * string)
}.

Definition pushFailed (results : BulkResults) (employee : Employee) (error : string)
  : BulkResults :=
  {| successful := successful results;
     failed := failed results ++ [(employee, error)] |}.

Definition pushSuccessful (results : BulkResults) (employee : Employee) (payroll : Payroll)
  : BulkResults :=
  {| successful := successful results ++ [(employee, payroll)];
     failed := failed results |}.

(** One turn of the [for (const employee of employees)] loop, with its
    [try] and [catch]. *)
Definition bulkStep (m : Mongoose) (req : BulkRequest) (state : BulkResults * DB)
    (employee : Employee) : BulkResults * DB :=
  let (results, db) := state in
  let month := bulk_month req in
  let year := bulk_year req in
  match Payroll_findOne m db (e_id employee) month year with
  | Some _ => (pushFailed results employee "Payroll already exists for this month", db)
  | None =>
      match calculatePayroll db (e_id employee) month year with
      | Throws error => (pushFailed results employee (message error), db)
      | Returns payrollData =>
          let payroll := newPayroll db (e_id employee) payrollData in
          match Payroll_save m db payroll with
          | Throws error => (pushFailed results employee (message error), db)
          | Returns db' => (pushSuccessful results employee payroll, db')
          end
      end
  end.

Definition bulkLoop (m : Mongoose) (req : BulkRequest) (employees : list Employee) (db : DB)
  : BulkResults * DB :=
  fold_left (bulkStep m req) employees ({| successful := []; failed := [] |}, db).

(** [generateBulkPayroll]: the loop, then the audit entry, with
    [action: 'payroll_bulk_generate'] and [id: null], and only then the
    response that carries the results. *)
Definition generateBulkPayroll (m : Mongoose) (req : BulkRequest) (db : DB)
  : Response BulkResults * DB :=
  if (bulk_month req =? 0) || (bulk_year req =? 0)
  then (badRequestResponse "Month and year are required", db)
  else
    let employees := Employee_find m db (bulk_departmentId req) in
    let (results, db') := bulkLoop m req employees db in
    match AuditLog_createLog m
            (auditEntry (b_user req) "payroll_bulk_generate" None "POST" 200) with
    | Throws _ => (errorResponse "Failed to generate bulk payroll" 500, db')
    | Returns _ => (successResponse results "Bulk payroll generation completed", db')
    end.

(** [Math.ceil((end - start) / (1000 * 60 * 60 * 24)) + 1]: the number of
    days that the leave controller and the seed script compute for a leave
    from its two dates. *)
Definition leaveNumberOfDays (startD endD : Z) : Z :=
  Math_ceil (inject_Z (endD - startD) / inject_Z msPerDay) + 1.

(** A [Date] is valid when its time value is at most 8.64e15 ms from the
    epoch (ECMAScript [TimeClip]); beyond it [new Date(...)] is an Invalid
    Date. *)
Definition validDate (t : Z) : bool := Z.abs t <=? 8640000000000000.

(** The two bounds of the pay period of a month are valid Dates. *)
Definition validPeriod (year month : Z) : Prop :=
  validDate (newDate year (month - 1) 1) = true
  /\ validDate (newDate year month 0) = true.


(** ** Concrete inputs *)

Module Example.

Definition noAllowances : Allowances :=
  {| hra := Some 0%Q; transport := Some 0%Q; medical := Some 0%Q;
     food := Some 0%Q; other := Some 0%Q |}.

Definition noDeductions : DeductionConfig :=
  {| professional := Some 0%Q; otherDeduction := Some 0%Q |}.

(** An employee paid 22,000 a month. *)
Definition employee22000 : Employee :=
  {| e_id := 1; employmentStatus := active; e_department := Some 7;
     salary := Some {| basic := Some 22000%Q;
                       allowances := Some noAllowances;
                       deductions := Some noDeductions |};
     leaveBalance := Some {| annual := Some 21%Q |} |}.

(** A day of eight hours, 09:00 to 17:00, on day [d] of April 2024. *)
Definition aprilDay (employeeId : ObjectId) (d : Z) : Attendance :=
  let date := newDate 2024 3 d in
  {| a_employee := employeeId;
     a_date := date;
     checkInTime := Some (date + 9 * 3600000);
     checkOutTime := Some (date + 17 * 3600000);
     hoursWorked := Some 8%Q |}.

(** Twenty attended days of April 2024, which has 22 working days. *)
Definition april2024 : DB :=
  {| employees := [employee22000];
     attendances :=
       map (aprilDay 1)
           [1; 2; 3; 4; 5; 8; 9; 10; 11; 12; 15; 16; 17; 18; 19; 22; 23; 24; 25; 26];
     leaves := [];
     payrolls := [] |}.

End Example.

(** ** Auxiliary definitions of the proofs *)

(** What one day adds to the count of [getWorkingDays]. *)
Definition workingDayBit (day : Z) : Z :=
  if negb ((day + 4) mod 7 =? 0) && negb ((day + 4) mod 7 =? 6) then 1 else 0.

Module OverDeducted.

(** An employee paid 1,000 a month who owes a recurring professional fee
    of 5,000. *)
Definition employee : Employee :=
  {| e_id := 2; employmentStatus := active; e_department := None;
     salary := Some {| basic := Some 1000%Q;
                       allowances := None;
                       deductions := Some {| professional := Some 5000%Q;
                                             otherDeduction := None |} |};
     leaveBalance := None |}.

Definition db : DB :=
  {| employees := [employee]; attendances := []; leaves := []; payrolls := [] |}.

End OverDeducted.

(** The attendance document after an update of its [hoursWorked]. *)
Definition setHoursWorked (record : Attendance) (h : Q) : Attendance :=
  {| a_employee := a_employee record;
     a_date := a_date record;
     checkInTime := checkInTime record;
     checkOutTime := checkOutTime record;
     hoursWorked := Some h |}.

Definition withAttendances (db : DB) (records : list Attendance) : DB :=
  {| employees := employees db;
     attendances := records;
     leaves := leaves db;
     payrolls := payrolls db |}.

(** The overtime one attendance record carries. *)
Definition overtime (record : Attendance) : Q :=
  Math_max 0 (orZero (hoursWorked record) - 8).

(** The attendance records that carry overtime. *)
Definition hasOvertime (record : Attendance) : bool :=
  negb (Qle_bool (orZero (hoursWorked record)) 8).

Definition basicOf (employee : Employee) : Q :=
  orZero (match salary employee with Some s => basic s | None => None end).

Module ZeroSalary.

(** An employee whose basic salary is 0, with one attended day of April
    2024 on which the hours go from 8 to 10. *)
Definition employee : Employee :=
  {| e_id := 5; employmentStatus := active; e_department := None;
     salary := Some {| basic := Some 0%Q;
                       allowances := Some {| hra := None; transport := Some 3000%Q;
                                             medical := None; food := None;
                                             other := None |};
                       deductions := None |};
     leaveBalance := None |}.

Definition day : Attendance := Example.aprilDay 5 2.

Definition db : DB :=
  {| employees := [employee]; attendances := [day]; leaves := []; payrolls := [] |}.

Definition db' : DB := withAttendances db [setHoursWorked day 10].

End ZeroSalary.

(** The overtime of a list of attendance records. *)
Definition totalOvertime (records : list Attendance) : Q :=
  fold_right (fun r s => (overtime r + s)%Q) 0%Q records.

(** The test [Attendance.find] applies to a document. *)
Definition attended (employeeId : ObjectId) (startD endD : Z) (a : Attendance) : bool :=
  (a_employee a =? employeeId)
  && (startD <=? a_date a) && (a_date a <=? endD)
  && match checkInTime a with Some _ => true | None => false end.

(** Two outcomes of the calculator with the same pay: the same failure, or
    two breakdowns that agree on everything but the attended days. *)
Definition samePay (r r' : Result PayrollData) : Prop :=
  match r, r' with
  | Returns b, Returns b' =>
      (grossPay b == grossPay b'
       /\ netPay b == netPay b'
       /\ overtimeHours b == overtimeHours b'
       /\ overtimeAmount b == overtimeAmount b'
       /\ taxAmount b == taxAmount b'
       /\ tax (pd_deductions b) == tax (pd_deductions b')
       /\ pf (pd_deductions b) == pf (pd_deductions b')
       /\ esi (pd_deductions b) == esi (pd_deductions b')
       /\ d_professional (pd_deductions b) == d_professional (pd_deductions b')
       /\ d_other (pd_deductions b) == d_other (pd_deductions b')
       /\ unpaidLeave (pd_deductions b) == unpaidLeave (pd_deductions b'))%Q
      /\ basicSalary b = basicSalary b'
      /\ pd_allowances b = pd_allowances b'
      /\ workingDays b = workingDays b'
      /\ leaveDays b = leaveDays b'
  | Throws e, Throws e' => e = e'
  | _, _ => False
  end.

(** ** Leave days, after the words of the specification

    The leave days of a period are the days, of the approved leave records
    that overlap the pay period, that fall inside the period. *)

(** The test [Leave.find] applies to a document. *)
Definition approvedOverlapping (employeeId : ObjectId) (startD endD : Z) (leave : Leave)
  : bool :=
  (l_employee leave =? employeeId)
  && match l_status leave with leave_approved => true | _ => false end
  && (startDate leave <=? endD) && (startD <=? endDate leave).

(** The midnights of the period, first day to last day. *)
Definition daysOfPeriod (startD endD : Z) : list Z :=
  map (fun i => startD + Z.of_nat i * msPerDay)
      (seq 0 (Z.to_nat ((endD - startD) / msPerDay + 1))).

(** The number of days of the period that fall inside a leave: the days,
    each from its midnight to the next, of which the leave takes a part
    between its start and its end. *)
Definition daysInside (startD endD : Z) (leave : Leave) : Z :=
  Z.of_nat
    (List.length
       (filter (fun d => (startDate leave <? d + msPerDay) && (d <=? endDate leave))
               (daysOfPeriod startD endD))).

Definition spec_leaveDays (records : list Leave) (employeeId : ObjectId) (startD endD : Z)
  : Z :=
  fold_right Z.add 0
    (map (daysInside startD endD)
         (filter (approvedOverlapping employeeId startD endD) records)).

(** A leave of whole days: from a midnight to a midnight, in order. *)
Definition wholeDayLeave (leave : Leave) : Prop :=
  startDate leave mod msPerDay = 0
  /\ endDate leave mod msPerDay = 0
  /\ startDate leave <= endDate leave.

Module LeaveExample.

(** Employee 1 of [Example] with two approved leaves of whole days, 10 to
    12 April 2024 and 29 April to 3 May 2024, and a rejected one. *)
Definition leave (status : LeaveStatus) (m1 d1 m2 d2 : Z) : Leave :=
  {| l_employee := 1;
     l_status := status;
     startDate := newDate 2024 m1 d1;
     endDate := newDate 2024 m2 d2;
     days := leaveNumberOfDays (newDate 2024 m1 d1) (newDate 2024 m2 d2) |}.

Definition db : DB :=
  {| employees := [Example.employee22000];
     attendances := [];
     leaves := [leave leave_approved 3 10 3 12;
                leave leave_approved 3 29 4 3;
                leave leave_rejected 3 15 3 19];
     payrolls := [] |}.

End LeaveExample.

Module PartDayLeave.

(** Employee 1 of [Example] on approved leave from 29 April 2024, 18:00,
    to 1 May 2024, 18:00.  The seed script stores such leaves: it starts a
    leave at the time of day at which it runs and ends it a number of days
    later at the same time. *)
Definition leave : Leave :=
  let startD := newDate 2024 3 29 + 18 * 3600000 in
  let endD := newDate 2024 4 1 + 18 * 3600000 in
  {| l_employee := 1;
     l_status := leave_approved;
     startDate := startD;
     endDate := endD;
     days := leaveNumberOfDays startD endD |}.

Definition db : DB :=
  {| employees := [Example.employee22000];
     attendances := [];
     leaves := [leave];
     payrolls := [] |}.

End PartDayLeave.

(** ** Concrete inputs of the handlers *)

Module GenerateExample.

(** User 9 asks for the payroll of employee 1 for April 2024. *)
Definition request : GenerateRequest :=
  {| body_employeeId := Some 1; body_month := 4; body_year := 2024; g_user := 9 |}.

End GenerateExample.

Module Lenient.

(** A Mongoose that drops no condition of a filter, lets [populate] pass a
    path that the schema does not have, and raises nothing from what the
    model does not hold. *)
Definition mongoose : Mongoose :=
  {| strictQuery := false;
     strictPopulate := false;
     Payroll_rest := fun _ _ => None;
     AuditLog_rest := fun _ => None |}.

End Lenient.

Module ApprovalExample.

(** A payroll record of employee 1 for March 2024 with the status
    [calculated], as the seed script stores them, and the request of user
    8 to approve it. *)
Definition calculatedRecord : Payroll :=
  {| p_id := 10;
     p_employee := 1;
     payrollPeriod_year := Some 2024;
     payrollPeriod_month := Some 3;
     payrollPeriod_startDate := Some (newDate 2024 2 1);
     payrollPeriod_endDate := Some (newDate 2024 3 0);
     deductions_tax := 3300;
     deductions_other := 0;
     p_status := "calculated";
     createdBy := Some 7;
     updatedBy := None;
     updatedAt := None |}.

Definition db : DB :=
  {| employees := [Example.employee22000]; attendances := []; leaves := [];
     payrolls := [calculatedRecord] |}.

Definition request : ApprovalRequest :=
  {| params_id := 10; a_user := 8; a_now := 1714694400000 |}.

End ApprovalExample.

Module BulkExample.

(** Three employees, two of department 7 and one of department 8, and
    the request of user 9 for the payrolls of April 2024. *)
Definition second : Employee :=
  {| e_id := 11; employmentStatus := active; e_department := Some 7;
     salary := Some {| basic := Some 30000%Q; allowances := None; deductions := None |};
     leaveBalance := None |}.

Definition third : Employee :=
  {| e_id := 12; employmentStatus := active; e_department := Some 8;
     salary := Some {| basic := Some 18000%Q; allowances := None; deductions := None |};
     leaveBalance := None |}.

Definition db : DB :=
  {| employees := [Example.employee22000; second; third];
     attendances := attendances Example.april2024;
     leaves := [];
     payrolls := [] |}.

Definition request : BulkRequest :=
  {| bulk_month := 4; bulk_year := 2024; bulk_departmentId := None; b_user := 9 |}.

End BulkExample.

(** ** Further definitions: the calculator *)

(** The days from day [a] to day [b] that are neither Saturday nor
    Sunday. *)
Definition weekdaysBetween (a b : Z) : list Z :=
  filter (fun d => negb ((d + 4) mod 7 =? 0) && negb ((d + 4) mod 7 =? 6))
         (map (fun i => a + Z.of_nat i) (seq 0 (Z.to_nat (b - a + 1)))).





Module Crowded.

(** [Example.april2024] with records of other employees and a stored
    payroll added. *)
Definition db : DB :=
  {| employees := employees Example.april2024;
     attendances := ZeroSalary.day :: attendances Example.april2024
                      ++ [setHoursWorked (Example.aprilDay 5 3) 12];
     leaves := [{| l_employee := 5; l_status := leave_approved;
                   startDate := newDate 2024 3 10; endDate := newDate 2024 3 12;
                   days := 3 |}];
     payrolls := [ApprovalExample.calculatedRecord] |}.

End Crowded.

(** ** Pagination ([utils/pagination.js])

    A page number or a page size that reaches these functions is what
    [parseInt] made of a text: an integer or [NaN], here [Some] integer or
    [None].  [Math.max] and [Math.min] with [NaN] give [NaN], a comparison
    with [NaN] is false, and [NaN || d] is [d]. *)

Module Pagination.

Definition Num : Type := option Z.

(** The arithmetic of the model is the exact one; that of the code is
    exact while its numbers stay below 2^53.  The statements are made for
    pages, limits and counts of at most [bound] in magnitude: every
    product below then stays far under 2^53 and every quotient is told
    apart from the whole numbers next to it. *)
Definition bound : Z := 1000000000000.

Definition small (x : Num) : Prop :=
  match x with
  | Some n => Z.abs n <= bound
  | None => True
  end.

(** [parseInt] of a number, as [calculatePagination] applies it to its
    page and its limit: the number is written out and the text is read
    back.  [NaN] is read back as [NaN].  An integer below 10^21 in
    magnitude is written with all its digits and read back as it was.  A
    larger one is written in exponent form, of which [parseInt] reads the
    digits before the point only; the model does not follow that case, for
    which there is no result here. *)
Definition parseInt_number (x : Num) : option Num :=
  match x with
  | None => Some None
  | Some n => if Z.abs n <? 1000000000000000000000 then Some (Some n) else None
  end.

Definition max_num (a : Z) (x : Num) : Num := option_map (Z.max a) x.
Definition min_num (a : Z) (x : Num) : Num := option_map (Z.min a) x.

(** [x || d] on a number: [NaN] and [0] give [d]. *)
Definition orDefault (x : Num) (d : Z) : Z :=
  match x with
  | Some 0 => d
  | Some n => n
  | None => d
  end.

Record Page : Type := {
  page : Num;
  limit : Num;
  skip : Num;
  totalPages : Num;
  totalItems : Z;
  hasNextPage : bool;
  hasPrevPage : bool
}.

(** [calculatePagination], for a page and a limit that are numbers. *)
Definition calculatePagination (page limit : Num) (totalItems : Z) : option Page :=
  match parseInt_number page, parseInt_number limit with
  | Some parsedPage, Some parsedLimit =>
      let currentPage := max_num 1 parsedPage in
      let itemsPerPage := min_num 100 (max_num 1 parsedLimit) in
      let totalPages :=
        option_map (fun n => Math_ceil (inject_Z totalItems / inject_Z n)) itemsPerPage in
      let skip :=
        match currentPage, itemsPerPage with
        | Some p, Some n => Some ((p - 1) * n)
        | _, _ => None
        end in
      Some {| page := currentPage;
              limit := itemsPerPage;
              skip := skip;
              totalPages := totalPages;
              totalItems := totalItems;
              hasNextPage := match currentPage, totalPages with
                             | Some p, Some t => p <? t
                             | _, _ => false
                             end;
              hasPrevPage := match currentPage with
                             | Some p => 1 <? p
                             | None => false
                             end |}
  | _, _ => None
  end.

Record Options : Type := {
  o_page : Z;
  o_limit : Z;
  o_skip : Z
}.

(** [getPaginationOptions], on [parseInt(req.query.page)] and
    [parseInt(req.query.limit)]. *)
Definition getPaginationOptions (queryPage queryLimit : Num) : Options :=
  let page := orDefault queryPage 1 in
  let limit := orDefault queryLimit 10 in
  {| o_page := Z.max 1 page;
     o_limit := Z.min 100 (Z.max 1 limit);
     o_skip := (Z.max 1 page - 1) * Z.min 100 (Z.max 1 limit) |}.

End Pagination.

Module LastDay.

(** Twelve hours of employee 1 on 30 April 2024, recorded at the time of
    the check-in, 09:00. *)
Definition record : Attendance :=
  {| a_employee := 1;
     a_date := newDate 2024 3 30 + 9 * 3600000;
     checkInTime := Some (newDate 2024 3 30 + 9 * 3600000);
     checkOutTime := Some (newDate 2024 3 30 + 21 * 3600000);
     hoursWorked := Some 12%Q |}.

End LastDay.

(** * Theorems *)

(** C1. For the employee paid 22,000 with no allowances and no configured
    deductions, in a period of 22 working days with 20 attended days, no
    overtime and no leave, the calculator returns a gross pay of 22000, a
    provident fund of 1800 (the 12% amount, 2640, capped), no ESI (the
    gross pay is above 21000), a monthly tax of
    ((264000 - 250000) * 0.05) / 12 = 58.33..., no unpaid-leave deduction,
    and a net pay of 22000 - 1800 - 58.33... = 20141.66... *)
Theorem calculatePayroll_end_to_end_example :
  exists b,
    calculatePayroll Example.april2024 1 4 2024 = Returns b
    /\ workingDays b = 22
    /\ attendanceDays b = 20
    /\ leaveDays b = 0
    /\ (overtimeHours b == 0
        /\ grossPay b == 22000
        /\ grossPay b * (12 # 100) == 2640
        /\ pf (pd_deductions b) == 1800
        /\ esi (pd_deductions b) == 0
        /\ tax (pd_deductions b) == ((264000 - 250000) * (5 # 100)) / 12
        /\ 58 + (33 # 100) < tax (pd_deductions b) < 58 + (34 # 100)
        /\ taxAmount b == tax (pd_deductions b)
        /\ d_professional (pd_deductions b) == 0
        /\ d_other (pd_deductions b) == 0
        /\ unpaidLeave (pd_deductions b) == 0
        /\ netPay b == 22000 - 1800 - tax (pd_deductions b)
        /\ 20141 + (66 # 100) < netPay b < 20141 + (67 # 100))%Q.
Proof.
  eexists. split.
  - vm_compute. reflexivity.
  - vm_compute. repeat split; try reflexivity; discriminate.
Qed.

(** ** The tax table *)

Lemma Qle_bool_false (x y : Q) : Qle_bool x y = false -> (y < x)%Q.
Proof.
  intros H. apply Qnot_le_lt. intros Hle.
  apply Qle_bool_iff in Hle. congruence.
Qed.

Ltac case_Qle :=
  match goal with
  | |- context [Qle_bool ?a ?b] =>
      let H := fresh "Hle" in
      destruct (Qle_bool a b) eqn:H;
      [apply Qle_bool_iff in H | apply Qle_bool_false in H]
  end.

(** Division by the constant 12, in the form linear arithmetic reads. *)
Ltac by_twelfths :=
  unfold Qdiv in *; change (/ 12)%Q with (1 # 12)%Q in *.

(** C2. The monthly tax is the bracket table applied to the annualised
    gross pay, divided by 12: nothing up to 250,000; 5% of the excess over
    250,000 up to 500,000; 12,500 plus 20% of the excess over 500,000 up to
    1,000,000; 112,500 plus 30% of the excess over 1,000,000.  At exactly
    250,000 the tax is 0 and at 250,001 it is positive. *)
Theorem calculateTax_bracket_table (grossPay : Q) :
  (let annualIncome := grossPay * 12 in
   (annualIncome <= 250000 -> calculateTax grossPay == 0)
   /\ (250000 < annualIncome <= 500000 ->
       calculateTax grossPay == ((annualIncome - 250000) * (5 # 100)) / 12)
   /\ (500000 < annualIncome <= 1000000 ->
       calculateTax grossPay == (12500 + (annualIncome - 500000) * (20 # 100)) / 12)
   /\ (1000000 < annualIncome ->
       calculateTax grossPay == (112500 + (annualIncome - 1000000) * (30 # 100)) / 12)
   /\ (annualIncome == 250000 -> calculateTax grossPay == 0)
   /\ (annualIncome == 250001 -> 0 < calculateTax grossPay))%Q.
Proof.
  unfold calculateTax. cbv zeta.
  repeat split; intros H; repeat case_Qle; by_twelfths; lra.
Qed.

Lemma calculateTax_bracket_table_witness :
  (calculateTax 20000 == 0
   /\ calculateTax 30000 == ((30000 * 12 - 250000) * (5 # 100)) / 12
   /\ calculateTax 60000 == (12500 + (60000 * 12 - 500000) * (20 # 100)) / 12
   /\ calculateTax 100000 == (112500 + (100000 * 12 - 1000000) * (30 # 100)) / 12
   /\ calculateTax (250000 / 12) == 0
   /\ 0 < calculateTax (250001 / 12))%Q.
Proof.
  split; [| split; [| split; [| split; [| split]]]].
  - apply (proj1 (calculateTax_bracket_table 20000)). discriminate.
  - apply (proj1 (proj2 (calculateTax_bracket_table 30000))).
    split; [reflexivity | discriminate].
  - apply (proj1 (proj2 (proj2 (calculateTax_bracket_table 60000)))).
    split; [reflexivity | discriminate].
  - apply (proj1 (proj2 (proj2 (proj2 (calculateTax_bracket_table 100000))))).
    reflexivity.
  - apply (proj1 (proj2 (proj2 (proj2 (proj2 (calculateTax_bracket_table (250000 / 12))))))).
    reflexivity.
  - apply (proj2 (proj2 (proj2 (proj2 (proj2 (calculateTax_bracket_table (250001 / 12))))))).
    reflexivity.
Defined.

(** ** The calendar *)

Lemma msPerDay_value : msPerDay = 86400000.
Proof. reflexivity. Qed.

Lemma DayFromYear_succ (y : Z) : DayFromYear (y + 1) = DayFromYear y + DaysInYear y.
Proof.
  unfold DayFromYear, DaysInYear.
  repeat match goal with
         | |- context [?a =? ?b] => destruct (Z.eqb_spec a b)
         end; cbn [negb]; Z.div_mod_to_equations; lia.
Qed.

Lemma InLeapYear_range (y : Z) : 0 <= InLeapYear y <= 1.
Proof.
  unfold InLeapYear, DaysInYear.
  repeat match goal with
         | |- context [?a =? ?b] => destruct (Z.eqb_spec a b)
         end; cbn [negb]; lia.
Qed.

Lemma monthOffset_step (k leap : Z) :
  1 <= k <= 11 -> 0 <= leap <= 1 ->
  28 <= monthOffset k leap - monthOffset (k - 1) leap <= 31.
Proof.
  intros Hk Hl.
  assert (Hl' : leap = 0 \/ leap = 1) by lia.
  assert (Hk' : k = 1 \/ k = 2 \/ k = 3 \/ k = 4 \/ k = 5 \/ k = 6 \/ k = 7
                \/ k = 8 \/ k = 9 \/ k = 10 \/ k = 11) by lia.
  destruct Hl' as [-> | ->];
    destruct Hk' as [-> | [-> | [-> | [-> | [-> | [-> | [-> | [-> | [-> | [-> | ->]]]]]]]]]];
    vm_compute; split; discriminate.
Qed.

(** A pay period is a whole calendar month: its last day is 27 to 30 days
    after its first day. *)
Lemma MakeDay_month_length (year month : Z) :
  27 <= MakeDay year month 0 - MakeDay year (month - 1) 1 <= 30.
Proof.
  unfold MakeDay. cbv zeta.
  assert (Hm : 0 <= month mod 12 < 12) by (apply Z.mod_pos_bound; lia).
  destruct (Z.eq_dec (month mod 12) 0) as [H0 | H0].
  - assert (Hd : month / 12 = (month - 1) / 12 + 1) by (Z.div_mod_to_equations; lia).
    assert (Hr : (month - 1) mod 12 = 11) by (Z.div_mod_to_equations; lia).
    rewrite H0, Hr, Hd.
    replace (year + ((month - 1) / 12 + 1)) with (year + (month - 1) / 12 + 1) by lia.
    rewrite DayFromYear_succ. cbn [monthOffset]. unfold InLeapYear. lia.
  - assert (Hd : month / 12 = (month - 1) / 12) by (Z.div_mod_to_equations; lia).
    assert (Hr : (month - 1) mod 12 = month mod 12 - 1) by (Z.div_mod_to_equations; lia).
    rewrite Hr, <- Hd.
    pose proof (InLeapYear_range (year + month / 12)) as Hl.
    pose proof (monthOffset_step (month mod 12) _ ltac:(lia) Hl).
    lia.
Qed.

(** ** Working days *)

Lemma getDay_midnight (day : Z) : getDay (day * msPerDay) = (day + 4) mod 7.
Proof.
  unfold getDay. rewrite Z.div_mul by (rewrite msPerDay_value; lia). reflexivity.
Qed.

Lemma nextDay_midnight (day : Z) : nextDay (day * msPerDay) = (day + 1) * msPerDay.
Proof. unfold nextDay. ring. Qed.

Lemma getWorkingDays_loop_step (fuel : nat) (day endD acc : Z) :
  day * msPerDay <= endD ->
  getWorkingDays_loop (S fuel) (day * msPerDay) endD acc
  = getWorkingDays_loop fuel ((day + 1) * msPerDay) endD (acc + workingDayBit day).
Proof.
  intros Hle. cbn [getWorkingDays_loop].
  apply Z.leb_le in Hle. rewrite Hle.
  rewrite getDay_midnight, nextDay_midnight. unfold workingDayBit.
  destruct (negb ((day + 4) mod 7 =? 0) && negb ((day + 4) mod 7 =? 6));
    [reflexivity | f_equal; lia].
Qed.

Lemma getWorkingDays_loop_done (fuel : nat) (currentDate endD acc : Z) :
  endD < currentDate -> getWorkingDays_loop fuel currentDate endD acc = acc.
Proof.
  intros Hlt. destruct fuel as [| fuel]; [reflexivity |].
  cbn [getWorkingDays_loop].
  apply Z.leb_gt in Hlt. rewrite Hlt. reflexivity.
Qed.

Lemma getWorkingDays_loop_ge (fuel : nat) :
  forall currentDate endD acc, acc <= getWorkingDays_loop fuel currentDate endD acc.
Proof.
  induction fuel as [| fuel IH]; intros currentDate endD acc; cbn [getWorkingDays_loop].
  - lia.
  - destruct (currentDate <=? endD); [| lia].
    cbv zeta.
    destruct (negb (getDay currentDate =? 0) && negb (getDay currentDate =? 6)).
    + specialize (IH (nextDay currentDate) endD (acc + 1)). lia.
    + apply IH.
Qed.

(** The loop leaves by its test, not for want of fuel: more fuel than
    [getWorkingDays] gives changes nothing. *)
Lemma getWorkingDays_loop_fuel (fuel : nat) :
  forall extra currentDate endD acc,
    (endD - currentDate) / msPerDay + 1 <= Z.of_nat fuel ->
    getWorkingDays_loop (fuel + extra) currentDate endD acc
    = getWorkingDays_loop fuel currentDate endD acc.
Proof.
  induction fuel as [| fuel IH]; intros extra currentDate endD acc Hfuel.
  - cbn [Nat.add getWorkingDays_loop].
    apply getWorkingDays_loop_done.
    rewrite msPerDay_value in Hfuel. Z.div_mod_to_equations. lia.
  - cbn [Nat.add getWorkingDays_loop].
    destruct (currentDate <=? endD) eqn:Hle; [| reflexivity].
    cbv zeta. apply IH.
    unfold nextDay. rewrite msPerDay_value in *.
    Z.div_mod_to_equations. lia.
Qed.

Lemma getWorkingDays_fuel_enough (startD endD : Z) (extra : nat) :
  getWorkingDays_loop (Z.to_nat ((endD - startD) / msPerDay + 1) + extra) startD endD 0
  = getWorkingDays startD endD.
Proof.
  unfold getWorkingDays. apply getWorkingDays_loop_fuel. lia.
Qed.

(** Seven days in a row hold five working days. *)
Lemma workingDayBit_week (day : Z) :
  workingDayBit day + workingDayBit (day + 1) + workingDayBit (day + 2)
  + workingDayBit (day + 3) + workingDayBit (day + 4) + workingDayBit (day + 5)
  + workingDayBit (day + 6) = 5.
Proof.
  unfold workingDayBit.
  replace (day + 1 + 4) with (day + 5) by lia.
  replace (day + 2 + 4) with (day + 6) by lia.
  replace (day + 3 + 4) with (day + 7) by lia.
  replace (day + 4 + 4) with (day + 8) by lia.
  replace (day + 5 + 4) with (day + 9) by lia.
  replace (day + 6 + 4) with (day + 10) by lia.
  rewrite <- (Z.add_mod_idemp_l day 4), <- (Z.add_mod_idemp_l day 5),
    <- (Z.add_mod_idemp_l day 6), <- (Z.add_mod_idemp_l day 7),
    <- (Z.add_mod_idemp_l day 8), <- (Z.add_mod_idemp_l day 9),
    <- (Z.add_mod_idemp_l day 10) by lia.
  pose proof (Z.mod_pos_bound day 7 ltac:(lia)) as Hr.
  set (r := day mod 7) in *.
  assert (Hc : r = 0 \/ r = 1 \/ r = 2 \/ r = 3 \/ r = 4 \/ r = 5 \/ r = 6) by lia.
  destruct Hc as [-> | [-> | [-> | [-> | [-> | [-> | ->]]]]]]; reflexivity.
Qed.

Lemma getWorkingDays_loop_week (fuel : nat) (day endD acc : Z) :
  (day + 6) * msPerDay <= endD ->
  getWorkingDays_loop (7 + fuel) (day * msPerDay) endD acc
  = getWorkingDays_loop fuel ((day + 7) * msPerDay) endD (acc + 5).
Proof.
  intros Hle. rewrite msPerDay_value in Hle.
  change (7 + fuel)%nat with (S (S (S (S (S (S (S fuel))))))).
  rewrite !getWorkingDays_loop_step by (rewrite msPerDay_value; lia).
  f_equal; [f_equal; lia |].
  pose proof (workingDayBit_week day) as Hw.
  replace (day + 1 + 1) with (day + 2) by lia.
  replace (day + 2 + 1) with (day + 3) by lia.
  replace (day + 3 + 1) with (day + 4) by lia.
  replace (day + 4 + 1) with (day + 5) by lia.
  replace (day + 5 + 1) with (day + 6) by lia.
  lia.
Qed.

(** Any period of at least 28 days, from a midnight, holds at least 20
    working days. *)
Lemma getWorkingDays_four_weeks (day endD : Z) :
  (day + 27) * msPerDay <= endD ->
  20 <= getWorkingDays (day * msPerDay) endD.
Proof.
  intros Hle. unfold getWorkingDays.
  rewrite msPerDay_value in Hle.
  assert (Hfuel : exists fuel,
             Z.to_nat ((endD - day * msPerDay) / msPerDay + 1) = (7 + (7 + (7 + (7 + fuel))))%nat).
  { exists (Z.to_nat ((endD - day * msPerDay) / msPerDay + 1) - 28)%nat.
    assert (28 <= (endD - day * msPerDay) / msPerDay + 1).
    { rewrite msPerDay_value. Z.div_mod_to_equations. lia. }
    lia. }
  destruct Hfuel as [fuel ->].
  rewrite !getWorkingDays_loop_week by (rewrite msPerDay_value; lia).
  pose proof (getWorkingDays_loop_ge fuel ((day + 7 + 7 + 7 + 7) * msPerDay) endD
                (0 + 5 + 5 + 5 + 5)).
  lia.
Qed.

(** The pay period of [calculatePayroll] always has at least 20 working
    days, so its two rates never divide by zero. *)
Lemma getWorkingDays_month (year month : Z) :
  20 <= getWorkingDays (newDate year (month - 1) 1) (newDate year month 0).
Proof.
  unfold newDate. cbv zeta.
  set (yr := if (0 <=? year) && (year <=? 99) then 1900 + year else year).
  pose proof (MakeDay_month_length yr month) as Hlen.
  apply getWorkingDays_four_weeks.
  rewrite msPerDay_value. lia.
Qed.

(** ** Net pay *)

Lemma calculatePayroll_Returns (db : DB) (employeeId : ObjectId) (month year : Z)
    (b : PayrollData) :
  calculatePayroll db employeeId month year = Returns b ->
  exists employee workingDays attendanceDays leaveDays overtimeHours,
    Employee_findById db employeeId = Some employee
    /\ b = payrollData employee workingDays attendanceDays leaveDays overtimeHours.
Proof.
  unfold calculatePayroll. cbv zeta.
  destruct (Employee_findById db employeeId) as [employee |]; [| discriminate].
  intros H. injection H as <-. eauto 8.
Qed.

Lemma netPay_payrollData (employee : Employee) (workingDays attendanceDays leaveDays : Z)
    (overtimeHours : Q) :
  let b := payrollData employee workingDays attendanceDays leaveDays overtimeHours in
  let d := pd_deductions b in
  (netPay b
   == grossPay b
      - (tax d + pf d + esi d + d_professional d + d_other d + unpaidLeave d))%Q.
Proof.
  unfold payrollData.
  cbn [netPay grossPay pd_deductions tax pf esi d_professional d_other unpaidLeave
         sumValues fold_left].
  cbv zeta. ring.
Qed.

(** C7. The returned net pay is the gross pay minus the sum of the six
    deductions (tax, pf, esi, professional, other, unpaidLeave), without a
    floor at zero: an input whose deductions exceed the gross pay gets a
    strictly negative net pay. *)
Theorem calculatePayroll_netPay_is_gross_minus_deductions :
  (forall db employeeId month year b,
      calculatePayroll db employeeId month year = Returns b ->
      let d := pd_deductions b in
      (netPay b
       == grossPay b
          - (tax d + pf d + esi d + d_professional d + d_other d + unpaidLeave d))%Q)
  /\ (exists b,
         calculatePayroll OverDeducted.db 2 4 2024 = Returns b
         /\ let d := pd_deductions b in
            (grossPay b
             < tax d + pf d + esi d + d_professional d + d_other d + unpaidLeave d
             /\ netPay b < 0)%Q).
Proof.
  split.
  - intros db employeeId month year b H.
    apply calculatePayroll_Returns in H.
    destruct H as (employee & wd & ad & ld & oh & _ & ->).
    apply netPay_payrollData.
  - eexists. split; [vm_compute; reflexivity |].
    vm_compute. split; reflexivity.
Qed.

Lemma calculatePayroll_netPay_is_gross_minus_deductions_witness :
  exists b,
    calculatePayroll Example.april2024 1 4 2024 = Returns b
    /\ let d := pd_deductions b in
       (netPay b
        == grossPay b
           - (tax d + pf d + esi d + d_professional d + d_other d + unpaidLeave d))%Q.
Proof.
  eexists. split; [vm_compute; reflexivity |].
  apply (proj1 calculatePayroll_netPay_is_gross_minus_deductions
               Example.april2024 1 4 2024).
  vm_compute. reflexivity.
Defined.

(** ** Failures of the calculator *)




(** ** Overtime *)

Lemma fold_overtimeOf (records : list Attendance) :
  forall total : Q,
    (fold_left overtimeOf records total == total + totalOvertime records)%Q.
Proof.
  unfold totalOvertime.
  induction records as [| r records IH]; intros total; cbn [fold_left fold_right].
  - ring.
  - rewrite IH. unfold overtimeOf, overtime. ring.
Qed.


Lemma overtime_none (record : Attendance) :
  hasOvertime record = false -> (overtime record == 0)%Q.
Proof.
  unfold hasOvertime, overtime, Math_max. intros H.
  apply negb_false_iff, Qle_bool_iff in H.
  apply Q.max_l. lra.
Qed.


Lemma calculatePayroll_withAttendances (db : DB) (records : list Attendance)
    (employee : Employee) (employeeId : ObjectId) (month year : Z) :
  Employee_findById db employeeId = Some employee ->
  let startD := newDate year (month - 1) 1 in
  let endD := newDate year month 0 in
  let found := Attendance_find (withAttendances db records) employeeId startD endD in
  calculatePayroll (withAttendances db records) employeeId month year
  = Returns
      (payrollData employee
         (getWorkingDays startD endD)
         (Z.of_nat (List.length found))
         (fold_left (fun leaveDays leave => leaveDays + leaveDaysOf startD endD leave)
                    (Leave_find db employeeId startD endD) 0)
         (fold_left overtimeOf found 0%Q)).
Proof.
  intros Hemp. unfold calculatePayroll. cbv zeta.
  change (Employee_findById (withAttendances db records) employeeId)
    with (Employee_findById db employeeId).
  rewrite Hemp. reflexivity.
Qed.

Lemma overtimeAmount_payrollData (employee : Employee) (wd ad ld : Z) (oh : Q) :
  (overtimeAmount (payrollData employee wd ad ld oh)
   == oh * (basicOf employee / (inject_Z wd * 8)) * (15 # 10))%Q.
Proof. reflexivity. Qed.

Lemma grossPay_payrollData (employee : Employee) (wd ad ld : Z) (oh : Q) :
  (grossPay (payrollData employee wd ad ld oh)
   == grossPay (payrollData employee wd ad ld 0)
      + overtimeAmount (payrollData employee wd ad ld oh))%Q.
Proof.
  unfold payrollData. cbn [grossPay overtimeAmount]. cbv zeta. ring.
Qed.


Lemma Attendance_find_filter (db : DB) (records : list Attendance)
    (employeeId : ObjectId) (startD endD : Z) :
  Attendance_find (withAttendances db records) employeeId startD endD
  = filter (attended employeeId startD endD) records.
Proof. reflexivity. Qed.







(** ** Attendance without overtime *)

#[local] Instance calculateTax_compat : Proper (Qeq ==> Qeq) calculateTax.
Proof.
  intros g g' Hg. unfold calculateTax. cbv zeta.
  assert (Ha : (g * 12 == g' * 12)%Q) by (rewrite Hg; reflexivity).
  rewrite (Qleb_comp _ _ Ha 250000%Q 250000%Q (Qeq_refl _)),
    (Qleb_comp _ _ Ha 500000%Q 500000%Q (Qeq_refl _)),
    (Qleb_comp _ _ Ha 1000000%Q 1000000%Q (Qeq_refl _)).
  repeat case_Qle; by_twelfths; lra.
Qed.

Lemma esi_compat (g g' : Q) :
  (g == g')%Q ->
  ((if Qle_bool g 21000 then g * (75 # 10000) else 0)
   == (if Qle_bool g' 21000 then g' * (75 # 10000) else 0))%Q.
Proof.
  intros Hg. rewrite (Qleb_comp g g' Hg 21000%Q 21000%Q (Qeq_refl _)).
  destruct (Qle_bool g' 21000); [rewrite Hg |]; reflexivity.
Qed.

Lemma payrollData_overtime_compat (employee : Employee) (wd ad ad' ld : Z) (oh oh' : Q) :
  (oh == oh')%Q ->
  samePay (Returns (payrollData employee wd ad ld oh))
          (Returns (payrollData employee wd ad' ld oh')).
Proof.
  intros Hoh. unfold samePay.
  assert (Hamount : (overtimeAmount (payrollData employee wd ad ld oh)
                     == overtimeAmount (payrollData employee wd ad' ld oh'))%Q).
  { rewrite !overtimeAmount_payrollData, Hoh. reflexivity. }
  assert (Hgross : (grossPay (payrollData employee wd ad ld oh)
                    == grossPay (payrollData employee wd ad' ld oh'))%Q).
  { rewrite (grossPay_payrollData employee wd ad ld oh),
      (grossPay_payrollData employee wd ad' ld oh'), Hamount.
    reflexivity. }
  assert (Htax : (tax (pd_deductions (payrollData employee wd ad ld oh))
                  == tax (pd_deductions (payrollData employee wd ad' ld oh')))%Q).
  { change (calculateTax (grossPay (payrollData employee wd ad ld oh))
            == calculateTax (grossPay (payrollData employee wd ad' ld oh')))%Q.
    rewrite Hgross. reflexivity. }
  assert (Hpf : (pf (pd_deductions (payrollData employee wd ad ld oh))
                 == pf (pd_deductions (payrollData employee wd ad' ld oh')))%Q).
  { change (Qmin (grossPay (payrollData employee wd ad ld oh) * (12 # 100)) 1800
            == Qmin (grossPay (payrollData employee wd ad' ld oh') * (12 # 100)) 1800)%Q.
    rewrite Hgross. reflexivity. }
  assert (Hesi : (esi (pd_deductions (payrollData employee wd ad ld oh))
                  == esi (pd_deductions (payrollData employee wd ad' ld oh')))%Q).
  { apply (esi_compat _ _ Hgross). }
  assert (Hnet : (netPay (payrollData employee wd ad ld oh)
                  == netPay (payrollData employee wd ad' ld oh'))%Q).
  { rewrite (netPay_payrollData employee wd ad ld oh),
      (netPay_payrollData employee wd ad' ld oh').
    cbv zeta. rewrite Hgross, Htax, Hpf, Hesi. reflexivity. }
  repeat match goal with |- _ /\ _ => split end;
    try assumption; try reflexivity.
Qed.

Lemma totalOvertime_filter (records : list Attendance) :
  (totalOvertime (filter hasOvertime records) == totalOvertime records)%Q.
Proof.
  unfold totalOvertime.
  induction records as [| r records IH]; cbn [filter fold_right]; [reflexivity |].
  destruct (hasOvertime r) eqn:Hr; cbn [fold_right]; rewrite IH.
  - reflexivity.
  - rewrite (overtime_none r Hr). ring.
Qed.

Lemma filter_swap {A : Type} (f g : A -> bool) (l : list A) :
  filter f (filter g l) = filter g (filter f l).
Proof.
  induction l as [| x l IH]; cbn [filter]; [reflexivity |].
  destruct (f x) eqn:Hf, (g x) eqn:Hg; cbn [filter];
    rewrite ?Hf, ?Hg, IH; reflexivity.
Qed.

(** C10.  Two inputs that differ only in attendance records of at most 8
    hours get the same outcome of the calculator: the same gross pay, net
    pay and deductions; of the returned fields only the attended days can
    differ. *)
Theorem attendance_without_overtime_does_not_change_pay
    (db : DB) (records records' : list Attendance)
    (employeeId : ObjectId) (month year : Z) :
  filter hasOvertime records = filter hasOvertime records' ->
  samePay (calculatePayroll (withAttendances db records) employeeId month year)
          (calculatePayroll (withAttendances db records') employeeId month year).
Proof.
  intros Hsame.
  destruct (Employee_findById db employeeId) as [employee |] eqn:Hemp.
  - rewrite !(calculatePayroll_withAttendances db _ employee) by exact Hemp.
    cbv zeta. apply payrollData_overtime_compat.
    rewrite !fold_overtimeOf, !Attendance_find_filter.
    rewrite <- (totalOvertime_filter (filter _ records)),
      <- (totalOvertime_filter (filter _ records')).
    rewrite !(filter_swap hasOvertime), Hsame. reflexivity.
  - unfold calculatePayroll. cbv zeta.
    change (Employee_findById (withAttendances db records) employeeId)
      with (Employee_findById db employeeId).
    change (Employee_findById (withAttendances db records') employeeId)
      with (Employee_findById db employeeId).
    rewrite Hemp. reflexivity.
Qed.

Lemma attendance_without_overtime_does_not_change_pay_witness :
  samePay (calculatePayroll
             (withAttendances Example.april2024 (attendances Example.april2024))
             1 4 2024)
          (calculatePayroll
             (withAttendances Example.april2024 (firstn 15 (attendances Example.april2024)))
             1 4 2024).
Proof.
  apply (attendance_without_overtime_does_not_change_pay Example.april2024
           (attendances Example.april2024)
           (firstn 15 (attendances Example.april2024)) 1 4 2024).
  vm_compute. reflexivity.
Defined.

(** ** Leave days *)

Lemma Math_ceil_days (k : Z) :
  Math_ceil (inject_Z (k * msPerDay) / inject_Z msPerDay) = k.
Proof.
  unfold Math_ceil.
  rewrite <- (Qceiling_Z k) at 2.
  apply Qceiling_comp.
  rewrite inject_Z_mult. change (inject_Z msPerDay) with 86400000%Q.
  field.
Qed.

Lemma whole_day (t : Z) : t mod msPerDay = 0 -> exists day, t = day * msPerDay.
Proof.
  intros H. exists (t / msPerDay).
  rewrite msPerDay_value in *. Z.div_mod_to_equations. lia.
Qed.

Lemma leaveDaysOf_whole_days (a b s e : Z) (leave : Leave) :
  startDate leave = s * msPerDay -> endDate leave = e * msPerDay ->
  leaveDaysOf (a * msPerDay) (b * msPerDay) leave = Z.min e b - Z.max s a + 1.
Proof.
  intros Hs He. unfold leaveDaysOf. cbv zeta. rewrite Hs, He.
  rewrite Z.mul_max_distr_nonneg_r, Z.mul_min_distr_nonneg_r
    by (rewrite msPerDay_value; lia).
  rewrite <- Z.mul_sub_distr_r, Math_ceil_days. reflexivity.
Qed.

Lemma count_range (lo hi : Z) (n : nat) :
  Z.of_nat
    (List.length (filter (fun i => (lo <=? Z.of_nat i) && (Z.of_nat i <=? hi)) (seq 0 n)))
  = Z.max 0 (Z.min hi (Z.of_nat n - 1) - Z.max lo 0 + 1).
Proof.
  induction n as [| n IH].
  - cbn. lia.
  - rewrite seq_S, filter_app, length_app, Nat2Z.inj_add, IH.
    cbn [Nat.add filter].
    destruct (Z.leb_spec lo (Z.of_nat n)), (Z.leb_spec (Z.of_nat n) hi);
      cbn [andb List.length]; lia.
Qed.

Lemma daysInside_whole_days (a b s e : Z) (leave : Leave) :
  startDate leave = s * msPerDay -> endDate leave = e * msPerDay ->
  a <= b -> s <= e -> s <= b -> a <= e ->
  daysInside (a * msPerDay) (b * msPerDay) leave = Z.min e b - Z.max s a + 1.
Proof.
  intros Hs He Hab Hse Hsb Hae. unfold daysInside, daysOfPeriod.
  rewrite filter_map_swap, length_map, Hs, He.
  rewrite <- Z.mul_sub_distr_r, Z.div_mul by (rewrite msPerDay_value; lia).
  rewrite (filter_ext _ (fun i => (s - a <=? Z.of_nat i) && (Z.of_nat i <=? e - a))).
  - rewrite count_range. lia.
  - intros i. rewrite msPerDay_value.
    destruct (Z.ltb_spec (s * 86400000) (a * 86400000 + Z.of_nat i * 86400000 + 86400000)),
      (Z.leb_spec (a * 86400000 + Z.of_nat i * 86400000) (e * 86400000)),
      (Z.leb_spec (s - a) (Z.of_nat i)), (Z.leb_spec (Z.of_nat i) (e - a));
      cbn [andb]; try reflexivity; lia.
Qed.

Lemma fold_left_sum {A : Type} (f : A -> Z) (l : list A) :
  forall acc, fold_left (fun s x => s + f x) l acc = acc + fold_right Z.add 0 (map f l).
Proof.
  induction l as [| x l IH]; intros acc; cbn [fold_left map fold_right].
  - lia.
  - rewrite IH. lia.
Qed.

(** Of a leave of whole days that overlaps the period the loop body of the
    calculator counts the days that fall inside the period. *)
Lemma leaveDaysOf_daysInside (a b : Z) (employeeId : ObjectId) (leave : Leave) :
  a <= b -> wholeDayLeave leave ->
  approvedOverlapping employeeId (a * msPerDay) (b * msPerDay) leave = true ->
  leaveDaysOf (a * msPerDay) (b * msPerDay) leave
  = daysInside (a * msPerDay) (b * msPerDay) leave.
Proof.
  intros Hab (Hs & He & Hse) Hov.
  destruct (whole_day _ Hs) as [s Hs'], (whole_day _ He) as [e He'].
  unfold approvedOverlapping in Hov.
  apply andb_prop in Hov. destruct Hov as [Hov Hae].
  apply andb_prop in Hov. destruct Hov as [_ Hsb].
  apply Z.leb_le in Hae, Hsb.
  assert (Hse' : s <= e) by (rewrite msPerDay_value in *; lia).
  assert (Hsb' : s <= b) by (rewrite msPerDay_value in *; lia).
  assert (Hae' : a <= e) by (rewrite msPerDay_value in *; lia).
  rewrite (leaveDaysOf_whole_days a b s e), (daysInside_whole_days a b s e) by assumption.
  reflexivity.
Qed.

(** C8 fails on the code for a leave that does not run from a midnight to
    a midnight.  The leave of [PartDayLeave], from the evening of 29 April
    to the evening of 1 May 2024, takes three days, 29 and 30 April and
    1 May, and is stored with 3 days.  The calculator counts 2 leave days
    for April, which are the two days of April, and 2 for May, of which
    only 1 May falls inside the leave: the [+ 1] of the loop body is
    added to a clipped interval of 18 hours that [Math.ceil] has already
    counted as a day. *)
Theorem calculatePayroll_leaveDays_part_day_leave :
  exists april may,
    calculatePayroll PartDayLeave.db 1 4 2024 = Returns april
    /\ calculatePayroll PartDayLeave.db 1 5 2024 = Returns may
    /\ days PartDayLeave.leave = 3
    /\ leaveDays april = 2
    /\ spec_leaveDays (leaves PartDayLeave.db) 1 (newDate 2024 3 1) (newDate 2024 4 0) = 2
    /\ leaveDays may = 2
    /\ spec_leaveDays (leaves PartDayLeave.db) 1 (newDate 2024 4 1) (newDate 2024 5 0) = 1.
Proof.
  eexists. eexists.
  split; [vm_compute; reflexivity |].
  split; [vm_compute; reflexivity |].
  vm_compute. repeat split.
Qed.

(** * The record lifecycle *)

(** ** What the schemas refuse *)

(** The document that the controller builds is refused by the validators
    of the schema: its status is not one of the schema, and it lacks the
    required period and creator. *)
Lemma Payroll_validate_newPayroll (db : DB) (employeeId : ObjectId) (payrollData : PayrollData) :
  In "status"%string (Payroll_validate (newPayroll db employeeId payrollData))
  /\ In "payrollPeriod.year"%string (Payroll_validate (newPayroll db employeeId payrollData))
  /\ In "createdBy"%string (Payroll_validate (newPayroll db employeeId payrollData)).
Proof.
  unfold Payroll_validate, newPayroll.
  cbn [payrollPeriod_year payrollPeriod_month payrollPeriod_startDate payrollPeriod_endDate
       p_status createdBy required].
  change (enum "status" payrollStatusEnum "pending") with ["status"%string].
  rewrite !in_app_iff. cbn [In]. split; [| split].
  - do 6 right. left. left. reflexivity.
  - left. left. reflexivity.
  - do 7 right. left. reflexivity.
Qed.

Lemma Payroll_save_invalid (m : Mongoose) (db : DB) (doc : Payroll) (path : string) :
  In path (Payroll_validate doc) -> exists error, Payroll_save m db doc = Throws error.
Proof.
  intros Hin. unfold Payroll_save.
  destruct (Payroll_validate doc) as [| p paths]; [destruct Hin |].
  eexists. reflexivity.
Qed.

Lemma Payroll_save_newPayroll (m : Mongoose) (db : DB) (employeeId : ObjectId)
    (payrollData : PayrollData) :
  exists error, Payroll_save m db (newPayroll db employeeId payrollData) = Throws error.
Proof.
  apply (Payroll_save_invalid m db _ "status").
  apply Payroll_validate_newPayroll.
Qed.

Lemma Payroll_validate_status (doc : Payroll) :
  isIn (p_status doc) payrollStatusEnum = false -> In "status"%string (Payroll_validate doc).
Proof.
  intros Hstatus. unfold Payroll_validate, enum. rewrite Hstatus.
  rewrite !in_app_iff. do 6 right. left. left. reflexivity.
Qed.

Lemma Payroll_save_rejected (m : Mongoose) (db : DB) (payroll : Payroll)
    (userId : ObjectId) (now : Z) :
  exists error, Payroll_save m db (stamp payroll "rejected" userId now) = Throws error.
Proof.
  apply (Payroll_save_invalid m db _ "status").
  apply Payroll_validate_status. reflexivity.
Qed.

Lemma AuditLog_createLog_invalid (m : Mongoose) (log : AuditLog) :
  isIn (al_action log) auditActionEnum = false ->
  exists error, AuditLog_createLog m log = Throws error.
Proof.
  intros Haction. unfold AuditLog_createLog, AuditLog_validate, enum at 1.
  rewrite Haction. eexists. reflexivity.
Qed.

(** ** Generation *)

(** C3 fails on the code.  [generatePayroll] builds its document under
    names that the Payroll schema does not have and with the status
    [pending], which is not a status of the schema; [save] refuses the
    document and the handler answers 500.  Whatever the request, the
    database and Mongoose, [generatePayroll] stores nothing and answers
    400, 404 or 500, never 201; for an employee that exists and a period
    for which no payroll is found it answers 500, as for the request of
    [GenerateExample]. *)
Theorem generatePayroll_never_creates (m : Mongoose) (req : GenerateRequest) (db : DB) :
  snd (generatePayroll m req db) = db
  /\ data (fst (generatePayroll m req db)) = None
  /\ In (statusCode (fst (generatePayroll m req db))) [400; 404; 500]
  /\ (forall employeeId employee,
         body_employeeId req = Some employeeId ->
         body_month req <> 0 -> body_year req <> 0 ->
         Employee_findById db employeeId = Some employee ->
         Payroll_findOne m db employeeId (body_month req) (body_year req) = None ->
         fst (generatePayroll m req db) = errorResponse "Failed to generate payroll" 500)
  /\ generatePayroll m GenerateExample.request Example.april2024
     = (errorResponse "Failed to generate payroll" 500, Example.april2024).
Proof.
  assert (Hgeneral :
            forall req db,
              snd (generatePayroll m req db) = db
              /\ data (fst (generatePayroll m req db)) = None
              /\ In (statusCode (fst (generatePayroll m req db))) [400; 404; 500]
              /\ (forall employeeId employee,
                     body_employeeId req = Some employeeId ->
                     body_month req <> 0 -> body_year req <> 0 ->
                     Employee_findById db employeeId = Some employee ->
                     Payroll_findOne m db employeeId (body_month req) (body_year req) = None ->
                     fst (generatePayroll m req db)
                     = errorResponse "Failed to generate payroll" 500)).
  { clear req db. intros req db. unfold generatePayroll. cbv zeta.
    destruct (body_employeeId req) as [employeeId |];
      [| cbn; repeat split; try tauto; intros ? ? H; discriminate H].
    destruct ((body_month req =? 0) || (body_year req =? 0)) eqn:Hzero.
    { cbn. repeat split; try tauto.
      intros ? ? _ Hm Hy. apply orb_true_iff in Hzero. destruct Hzero as [Hz | Hz];
        apply Z.eqb_eq in Hz; contradiction. }
    destruct (Employee_findById db employeeId) as [employee |] eqn:Hemp;
      [| cbn; repeat split; try tauto;
         intros ? ? H _ _ He; injection H as <-; rewrite Hemp in He; discriminate He].
    destruct (Payroll_findOne m db employeeId (body_month req) (body_year req)) eqn:Hone;
      [cbn; repeat split; try tauto;
       intros ? ? H _ _ _ Hnone; injection H as <-; rewrite Hone in Hnone; discriminate Hnone |].
    destruct (calculatePayroll db employeeId (body_month req) (body_year req))
      as [payrollData | error];
      [| cbn; repeat split; tauto].
    destruct (Payroll_save_newPayroll m db employeeId payrollData) as (error & ->).
    cbn. repeat split; tauto. }
  destruct (Hgeneral req db) as (Hdb & Hdata & Hcode & Hfail).
  split; [exact Hdb |]. split; [exact Hdata |]. split; [exact Hcode |].
  split; [exact Hfail |].
  destruct (Hgeneral GenerateExample.request Example.april2024) as (Hdb' & _ & _ & Hfail').
  rewrite (surjective_pairing (generatePayroll m GenerateExample.request Example.april2024)).
  rewrite Hdb'. f_equal.
  apply (Hfail' 1 Example.employee22000); try reflexivity; try discriminate.
  unfold Payroll_findOne. destruct (strictQuery m); reflexivity.
Qed.

(** ** Approval *)

Lemma find_map_update (docs : list Payroll) (id : ObjectId) (doc payroll : Payroll) :
  p_id doc = id ->
  find (fun p => p_id p =? id) docs = Some payroll ->
  find (fun p => p_id p =? id)
       (map (fun p => if p_id p =? p_id doc then doc else p) docs) = Some doc.
Proof.
  intros Hid. rewrite Hid.
  induction docs as [| a docs IH]; cbn [find map]; [discriminate |].
  destruct (p_id a =? id) eqn:Ha.
  - intros _. rewrite Hid, Z.eqb_refl. reflexivity.
  - rewrite Ha. exact IH.
Qed.

Lemma find_existsb (docs : list Payroll) (id : ObjectId) (payroll : Payroll) :
  find (fun p => p_id p =? id) docs = Some payroll ->
  existsb (fun p => p_id p =? id) docs = true /\ p_id payroll = id.
Proof.
  intros Hfind. apply find_some in Hfind. destruct Hfind as [Hin Hid].
  split; [| apply Z.eqb_eq; exact Hid].
  apply existsb_exists. exists payroll. split; assumption.
Qed.

(** [save] of a loaded document, when it returns, has replaced the
    documents of its [_id], and only a document with a status of the
    schema is saved. *)
Lemma Payroll_save_loaded (m : Mongoose) (db db' : DB) (payroll : Payroll)
    (status : string) (userId : ObjectId) (now : Z) :
  Payroll_findById db (p_id payroll) = Some payroll ->
  Payroll_save m db (stamp payroll status userId now) = Returns db' ->
  db' = withPayrolls db
          (map (fun p => if p_id p =? p_id payroll
                         then stamp payroll status userId now else p)
               (payrolls db))
  /\ isIn status payrollStatusEnum = true.
Proof.
  intros Hfind. unfold Payroll_save.
  destruct (Payroll_validate (stamp payroll status userId now)) as [| path paths] eqn:Hvalid;
    [| discriminate].
  destruct (Payroll_rest m db (stamp payroll status userId now)); [discriminate |].
  apply find_existsb in Hfind. destruct Hfind as [Hexists _].
  cbn [p_id stamp]. rewrite Hexists.
  intros Hsave. injection Hsave as <-. split; [reflexivity |].
  destruct (isIn status payrollStatusEnum) eqn:Hstatus; [reflexivity |].
  pose proof (Payroll_validate_status (stamp payroll status userId now) Hstatus) as Hin.
  rewrite Hvalid in Hin. destruct Hin.
Qed.

Lemma Payroll_findById_id (db : DB) (id : ObjectId) (payroll : Payroll) :
  Payroll_findById db id = Some payroll -> p_id payroll = id.
Proof. intros Hfind. apply (find_existsb _ _ _ Hfind). Qed.

(** The outcomes of [approvePayroll] on a record that is found and is not
    approved. *)
Lemma approvePayroll_passes (m : Mongoose) (req : ApprovalRequest) (db : DB)
    (payroll : Payroll) :
  Payroll_findById db (params_id req) = Some payroll ->
  String.eqb (p_status payroll) "approved" = false ->
  let payroll' := stamp payroll "approved" (a_user req) (a_now req) in
  let db' :=
    withPayrolls db
      (map (fun p => if p_id p =? params_id req then payroll' else p) (payrolls db)) in
  approvePayroll m req db = (successResponse payroll' "Payroll approved successfully", db')
  \/ approvePayroll m req db = (errorResponse "Failed to approve payroll" 500, db')
  \/ approvePayroll m req db = (errorResponse "Failed to approve payroll" 500, db).
Proof.
  intros Hfind Hstatus. cbv zeta. unfold approvePayroll. rewrite Hfind, Hstatus.
  pose proof (Payroll_findById_id _ _ _ Hfind) as Hid.
  destruct (Payroll_save m db (stamp payroll "approved" (a_user req) (a_now req)))
    as [db' | error] eqn:Hsave; [| right; right; reflexivity].
  rewrite <- Hid in Hfind.
  destruct (Payroll_save_loaded m db db' payroll _ _ _ Hfind Hsave) as [-> _].
  rewrite Hid.
  destruct (afterSave m db _ "payroll_approve" (a_user req));
    [left; reflexivity | right; left; reflexivity].
Qed.

(** With 200 the approved record is the one sent and the one stored. *)
Lemma approvePayroll_stored (m : Mongoose) (req : ApprovalRequest) (db : DB)
    (payroll : Payroll) :
  Payroll_findById db (params_id req) = Some payroll ->
  String.eqb (p_status payroll) "approved" = false ->
  In (statusCode (fst (approvePayroll m req db))) [200; 500]
  /\ (statusCode (fst (approvePayroll m req db)) = 200 ->
      let payroll' := stamp payroll "approved" (a_user req) (a_now req) in
      data (fst (approvePayroll m req db)) = Some payroll'
      /\ Payroll_findById (snd (approvePayroll m req db)) (params_id req) = Some payroll').
Proof.
  intros Hfind Hstatus.
  destruct (approvePayroll_passes m req db payroll Hfind Hstatus) as [H | [H | H]];
    cbv zeta in H; rewrite H; cbn [fst snd statusCode data successResponse errorResponse].
  - split; [left; reflexivity |]. intros _. cbv zeta. split; [reflexivity |].
    unfold Payroll_findById. cbn [payrolls withPayrolls].
    pose proof (Payroll_findById_id _ _ _ Hfind) as Hid.
    rewrite <- (find_map_update (payrolls db) (params_id req)
                  (stamp payroll "approved" (a_user req) (a_now req)) payroll Hid Hfind)
      at 1.
    cbn [p_id stamp]. rewrite Hid. reflexivity.
  - split; [right; left; reflexivity |]. intros H500. discriminate H500.
  - split; [right; left; reflexivity |]. intros H500. discriminate H500.
Qed.

(** C4, amended.  [approvePayroll] refuses a record, with 400 and the
    database left as it is, exactly when its stored status is [approved].
    A record with any other status passes the guard: the answer is then
    200 or, when the save or what follows it throws, 500, and with 200 the
    record is sent and stored with the status [approved]. *)
Theorem approvePayroll_refuses_approved_only
    (m : Mongoose) (req : ApprovalRequest) (db : DB) (payroll : Payroll) :
  Payroll_findById db (params_id req) = Some payroll ->
  (p_status payroll = "approved"%string ->
   approvePayroll m req db = (badRequestResponse "Payroll is already approved", db))
  /\ (p_status payroll <> "approved"%string ->
      In (statusCode (fst (approvePayroll m req db))) [200; 500]
      /\ (statusCode (fst (approvePayroll m req db)) = 200 ->
          let payroll' := stamp payroll "approved" (a_user req) (a_now req) in
          data (fst (approvePayroll m req db)) = Some payroll'
          /\ Payroll_findById (snd (approvePayroll m req db)) (params_id req)
             = Some payroll')).
Proof.
  intros Hfind. split.
  - intros Hstatus. unfold approvePayroll. rewrite Hfind, Hstatus. reflexivity.
  - intros Hstatus. apply String.eqb_neq in Hstatus.
    exact (approvePayroll_stored m req db payroll Hfind Hstatus).
Qed.

Lemma approvePayroll_refuses_approved_only_witness :
  In (statusCode
        (fst (approvePayroll Lenient.mongoose ApprovalExample.request ApprovalExample.db)))
     [200; 500].
Proof.
  apply (approvePayroll_refuses_approved_only Lenient.mongoose ApprovalExample.request
           ApprovalExample.db ApprovalExample.calculatedRecord eq_refl).
  discriminate.
Defined.

(** C4, as stated, fails: [approvePayroll] does not refuse the record of
    [ApprovalExample], whose status is [calculated] and not [pending].
    Whatever Mongoose, the answer is not the 400 of the guard; with the
    Mongoose of [Lenient] the answer is 200 and the record is stored as
    approved. *)
Lemma approvePayroll_approves_calculated_record :
  Payroll_findById ApprovalExample.db (params_id ApprovalExample.request)
  = Some ApprovalExample.calculatedRecord
  /\ p_status ApprovalExample.calculatedRecord = "calculated"%string
  /\ (forall m,
         statusCode (fst (approvePayroll m ApprovalExample.request ApprovalExample.db))
         <> 400)
  /\ approvePayroll Lenient.mongoose ApprovalExample.request ApprovalExample.db
     = (successResponse
          (stamp ApprovalExample.calculatedRecord "approved" 8 1714694400000)
          "Payroll approved successfully",
        withPayrolls ApprovalExample.db
          [stamp ApprovalExample.calculatedRecord "approved" 8 1714694400000]).
Proof.
  split; [reflexivity |]. split; [reflexivity |]. split; [| reflexivity].
  intros m.
  destruct (approvePayroll_passes m ApprovalExample.request ApprovalExample.db
              ApprovalExample.calculatedRecord eq_refl eq_refl) as [H | [H | H]];
    cbv zeta in H; rewrite H; cbn; discriminate.
Qed.

(** ** Rejection *)

(** X11.  [rejectPayroll] never answers 200 and never changes the
    database: the status [rejected] that it assigns is not a status of the
    Payroll schema, so the save of a pending record throws.  It answers
    404 for an unknown id, 400 for a record whose status is not [pending]
    and 500 for one whose status is [pending]. *)
Theorem rejectPayroll_never_succeeds (m : Mongoose) (req : ApprovalRequest) (db : DB) :
  snd (rejectPayroll m req db) = db
  /\ data (fst (rejectPayroll m req db)) = None
  /\ fst (rejectPayroll m req db)
     = match Payroll_findById db (params_id req) with
       | None => notFoundResponse "Payroll record not found"
       | Some payroll =>
           if String.eqb (p_status payroll) "pending"
           then errorResponse "Failed to reject payroll" 500
           else badRequestResponse "Payroll has already been processed"
       end.
Proof.
  unfold rejectPayroll.
  destruct (Payroll_findById db (params_id req)) as [payroll |];
    [| repeat split].
  destruct (String.eqb (p_status payroll) "pending"); cbn [negb]; [| repeat split].
  destruct (Payroll_save_rejected m db payroll (a_user req) (a_now req)) as (error & ->).
  repeat split.
Qed.

(** ** What an approval changes *)


(** X12.  A record that [approvePayroll] has stored as approved stays as
    it is: when an approval was answered with 200, every later approval
    and every later rejection of that record, whatever Mongoose, is
    answered with 400 and changes nothing. *)
Theorem approved_record_is_final
    (m m' : Mongoose) (first again : ApprovalRequest) (db : DB) :
  statusCode (fst (approvePayroll m first db)) = 200 ->
  params_id again = params_id first ->
  let db1 := snd (approvePayroll m first db) in
  approvePayroll m' again db1 = (badRequestResponse "Payroll is already approved", db1)
  /\ rejectPayroll m' again db1
     = (badRequestResponse "Payroll has already been processed", db1).
Proof.
  intros H200 Hid. cbv zeta.
  destruct (Payroll_findById db (params_id first)) as [payroll |] eqn:Hfind;
    [| unfold approvePayroll in H200; rewrite Hfind in H200; discriminate H200].
  destruct (String.eqb (p_status payroll) "approved") eqn:Hstatus;
    [unfold approvePayroll in H200; rewrite Hfind, Hstatus in H200; discriminate H200 |].
  destruct (approvePayroll_stored m first db payroll Hfind Hstatus) as [_ Hstored].
  destruct (Hstored H200) as [_ Hfound]. cbv zeta in Hfound.
  unfold approvePayroll at 1, rejectPayroll. rewrite Hid, Hfound.
  split; reflexivity.
Qed.

Lemma approved_record_is_final_witness :
  approvePayroll Lenient.mongoose ApprovalExample.request
    (snd (approvePayroll Lenient.mongoose ApprovalExample.request ApprovalExample.db))
  = (badRequestResponse "Payroll is already approved",
     snd (approvePayroll Lenient.mongoose ApprovalExample.request ApprovalExample.db)).
Proof.
  apply (approved_record_is_final Lenient.mongoose Lenient.mongoose
           ApprovalExample.request ApprovalExample.request ApprovalExample.db);
    reflexivity.
Defined.

(** ** Bulk generation *)

Lemma bulkStep_fails (m : Mongoose) (req : BulkRequest) (results : BulkResults) (db : DB)
    (employee : Employee) :
  exists error,
    bulkStep m req (results, db) employee = (pushFailed results employee error, db).
Proof.
  unfold bulkStep. cbv zeta.
  destruct (Payroll_findOne m db (e_id employee) (bulk_month req) (bulk_year req));
    [eexists; reflexivity |].
  destruct (calculatePayroll db (e_id employee) (bulk_month req) (bulk_year req))
    as [payrollData | error]; [| eexists; reflexivity].
  destruct (Payroll_save_newPayroll m db (e_id employee) payrollData) as (error & ->).
  eexists. reflexivity.
Qed.

(** The loop stores nothing and puts every employee, in order, on the
    list of the failed. *)
Lemma bulkLoop_all_failed (m : Mongoose) (req : BulkRequest) (db : DB)
    (employees : list Employee) :
  forall results,
    snd (fold_left (bulkStep m req) employees (results, db)) = db
    /\ successful (fst (fold_left (bulkStep m req) employees (results, db)))
       = successful results
    /\ map fst (failed (fst (fold_left (bulkStep m req) employees (results, db))))
       = map fst (failed results) ++ employees.
Proof.
  induction employees as [| employee employees IH]; intros results; cbn [fold_left].
  - cbn [fst snd]. rewrite app_nil_r. repeat split.
  - destruct (bulkStep_fails m req results db employee) as (error & ->).
    destruct (IH (pushFailed results employee error)) as (Hdb & Hok & Hfailed).
    split; [exact Hdb |]. split; [exact Hok |].
    rewrite Hfailed. cbn [pushFailed failed]. rewrite map_app, <- app_assoc. reflexivity.
Qed.

(** C6 fails on the code.  The loop of [generateBulkPayroll] treats the
    employees one by one and collects the failures: no single failure
    stops it.  But every save fails, as in [generatePayroll], so every
    employee ends on the list of the failed and nothing is stored; and the
    audit entry that follows the loop, with the action
    [payroll_bulk_generate] and no resource id, is refused by the AuditLog
    schema, so the handler answers 500 and the two lists are never
    returned.  This holds for every request, database and Mongoose, and so
    for the request of [BulkExample]. *)
Theorem generateBulkPayroll_never_returns_results
    (m : Mongoose) (req : BulkRequest) (db : DB) :
  snd (generateBulkPayroll m req db) = db
  /\ data (fst (generateBulkPayroll m req db)) = None
  /\ fst (generateBulkPayroll m req db)
     = (if (bulk_month req =? 0) || (bulk_year req =? 0)
        then badRequestResponse "Month and year are required"
        else errorResponse "Failed to generate bulk payroll" 500)
  /\ (let employees := Employee_find m db (bulk_departmentId req) in
      let results := fst (bulkLoop m req employees db) in
      successful results = [] /\ map fst (failed results) = employees)
  /\ generateBulkPayroll m BulkExample.request BulkExample.db
     = (errorResponse "Failed to generate bulk payroll" 500, BulkExample.db).
Proof.
  assert (Hgeneral :
            forall req db,
              snd (generateBulkPayroll m req db) = db
              /\ data (fst (generateBulkPayroll m req db)) = None
              /\ fst (generateBulkPayroll m req db)
                 = (if (bulk_month req =? 0) || (bulk_year req =? 0)
                    then badRequestResponse "Month and year are required"
                    else errorResponse "Failed to generate bulk payroll" 500)).
  { clear req db. intros req db. unfold generateBulkPayroll.
    destruct ((bulk_month req =? 0) || (bulk_year req =? 0)); [repeat split |].
    cbv zeta.
    pose proof (bulkLoop_all_failed m req db (Employee_find m db (bulk_departmentId req))
                  {| successful := []; failed := [] |}) as (Hdb & _ & _).
    fold (bulkLoop m req (Employee_find m db (bulk_departmentId req)) db) in Hdb.
    destruct (bulkLoop m req (Employee_find m db (bulk_departmentId req)) db)
      as [results db'].
    cbn [snd] in Hdb. subst db'.
    destruct (AuditLog_createLog_invalid m
                (auditEntry (b_user req) "payroll_bulk_generate" None "POST" 200) eq_refl)
      as (error & ->).
    repeat split. }
  destruct (Hgeneral req db) as (Hdb & Hdata & Hresponse).
  split; [exact Hdb |]. split; [exact Hdata |]. split; [exact Hresponse |]. split.
  - cbv zeta.
    pose proof (bulkLoop_all_failed m req db (Employee_find m db (bulk_departmentId req))
                  {| successful := []; failed := [] |}) as (_ & Hok & Hfailed).
    split; [exact Hok | exact Hfailed].
  - destruct (Hgeneral BulkExample.request BulkExample.db) as (Hdb' & _ & Hresponse').
    rewrite (surjective_pairing (generateBulkPayroll m BulkExample.request BulkExample.db)).
    rewrite Hdb', Hresponse'. reflexivity.
Qed.

(** * Further properties of the calculator *)

Lemma getWorkingDays_loop_le (fuel : nat) :
  forall currentDate endD acc,
    getWorkingDays_loop fuel currentDate endD acc <= acc + Z.of_nat fuel.
Proof.
  induction fuel as [| fuel IH]; intros currentDate endD acc; cbn [getWorkingDays_loop].
  - lia.
  - destruct (currentDate <=? endD); [| lia].
    cbv zeta.
    destruct (negb (getDay currentDate =? 0) && negb (getDay currentDate =? 6)).
    + specialize (IH (nextDay currentDate) endD (acc + 1)). lia.
    + specialize (IH (nextDay currentDate) endD acc). lia.
Qed.

(** X1.  A pay period whose two bounds are valid Dates has between 20 and
    23 working days. *)
Theorem getWorkingDays_month_bounds (year month : Z) :
  validPeriod year month ->
  20 <= getWorkingDays (newDate year (month - 1) 1) (newDate year month 0) <= 23.
Proof.
  intros _.
  split; [apply getWorkingDays_month |].
  unfold newDate. cbv zeta.
  set (yr := if (0 <=? year) && (year <=? 99) then 1900 + year else year).
  pose proof (MakeDay_month_length yr month) as Hlen.
  set (a := MakeDay yr (month - 1) 1) in *.
  set (b := MakeDay yr month 0) in *.
  unfold getWorkingDays.
  rewrite <- Z.mul_sub_distr_r, Z.div_mul by (rewrite msPerDay_value; lia).
  assert (Hfuel : exists fuel,
             Z.to_nat (b - a + 1) = (7 + (7 + (7 + (7 + fuel))))%nat /\ (fuel <= 3)%nat).
  { exists (Z.to_nat (b - a + 1) - 28)%nat. lia. }
  destruct Hfuel as (fuel & -> & Hfuel).
  rewrite !getWorkingDays_loop_week by (rewrite msPerDay_value; lia).
  pose proof (getWorkingDays_loop_le fuel ((a + 7 + 7 + 7 + 7) * msPerDay) (b * msPerDay)
                (0 + 5 + 5 + 5 + 5)).
  lia.
Qed.

Lemma getWorkingDays_month_bounds_witness :
  20 <= getWorkingDays (newDate 2024 (2 - 1) 1) (newDate 2024 2 0) <= 23.
Proof.
  apply (getWorkingDays_month_bounds 2024 2). split; reflexivity.
Defined.

Lemma getWorkingDays_loop_count (b : Z) (n : nat) :
  forall a acc,
    Z.of_nat n = b - a + 1 ->
    getWorkingDays_loop n (a * msPerDay) (b * msPerDay) acc
    = acc + Z.of_nat
              (List.length
                 (filter (fun d => negb ((d + 4) mod 7 =? 0) && negb ((d + 4) mod 7 =? 6))
                         (map (fun i => a + Z.of_nat i) (seq 0 n)))).
Proof.
  induction n as [| n IH]; intros a acc Hn.
  - cbn. lia.
  - rewrite getWorkingDays_loop_step by (rewrite msPerDay_value; lia).
    rewrite IH by lia.
    cbn [seq map filter]. rewrite <- seq_shift, map_map.
    rewrite (map_ext (fun i => a + Z.of_nat (S i)) (fun i => a + 1 + Z.of_nat i))
      by (intros i; lia).
    replace (a + Z.of_nat 0) with a by lia.
    unfold workingDayBit.
    destruct (negb ((a + 4) mod 7 =? 0) && negb ((a + 4) mod 7 =? 6));
      cbn [List.length]; lia.
Qed.

(** X2.  From the midnight of day [a] to the midnight of day [b],
    [getWorkingDays] counts the days that are neither Saturday nor Sunday;
    when [b] is before [a] it counts nothing. *)
Theorem getWorkingDays_counts_weekdays (a b : Z) :
  getWorkingDays (a * msPerDay) (b * msPerDay)
  = Z.of_nat (List.length (weekdaysBetween a b))
  /\ (b < a -> getWorkingDays (a * msPerDay) (b * msPerDay) = 0).
Proof.
  assert (Hcount : getWorkingDays (a * msPerDay) (b * msPerDay)
                   = Z.of_nat (List.length (weekdaysBetween a b))).
  { unfold getWorkingDays, weekdaysBetween.
    rewrite <- Z.mul_sub_distr_r, Z.div_mul by (rewrite msPerDay_value; lia).
    destruct (Z_le_gt_dec 0 (b - a + 1)) as [Hpos | Hneg].
    - rewrite getWorkingDays_loop_count by lia. lia.
    - replace (Z.to_nat (b - a + 1)) with 0%nat by lia. reflexivity. }
  split; [exact Hcount |].
  intros Hlt. rewrite Hcount. unfold weekdaysBetween.
  replace (Z.to_nat (b - a + 1)) with 0%nat by lia. reflexivity.
Qed.

Lemma getWorkingDays_counts_weekdays_witness :
  getWorkingDays (19850 * msPerDay) (19840 * msPerDay) = 0.
Proof.
  apply (proj2 (getWorkingDays_counts_weekdays 19850 19840)). reflexivity.
Defined.

(** ** Tax and the statutory deductions *)

Lemma calculateTax_increase (g1 g2 : Q) :
  (g1 <= g2 ->
   0 <= calculateTax g2 - calculateTax g1 <= (30 # 100) * (g2 - g1))%Q.
Proof.
  intros Hle. unfold calculateTax. cbv zeta.
  repeat case_Qle; by_twelfths; lra.
Qed.

Lemma calculateTax_nonneg (g : Q) : (0 <= calculateTax g)%Q.
Proof.
  unfold calculateTax. cbv zeta. repeat case_Qle; by_twelfths; lra.
Qed.

(** X3.  The monthly tax is never negative, never falls when the gross pay
    rises, and never takes more than 30% of a rise. *)
Theorem calculateTax_monotone (g1 g2 : Q) :
  (0 <= calculateTax g1
   /\ (g1 <= g2 ->
       calculateTax g1 <= calculateTax g2
       /\ calculateTax g2 - calculateTax g1 <= (30 # 100) * (g2 - g1)))%Q.
Proof.
  split.
  - apply calculateTax_nonneg.
  - intros Hle. pose proof (calculateTax_increase g1 g2 Hle). lra.
Qed.

Lemma calculateTax_monotone_witness :
  (calculateTax 22000 <= calculateTax 50000
   /\ calculateTax 50000 - calculateTax 22000 <= (30 # 100) * (50000 - 22000))%Q.
Proof.
  apply (proj2 (calculateTax_monotone 22000 50000)). discriminate.
Defined.


Lemma pf_payrollData (employee : Employee) (wd ad ld : Z) (oh : Q) :
  pf (pd_deductions (payrollData employee wd ad ld oh))
  = Qmin (grossPay (payrollData employee wd ad ld oh) * (12 # 100)) 1800.
Proof. reflexivity. Qed.

Lemma esi_payrollData (employee : Employee) (wd ad ld : Z) (oh : Q) :
  esi (pd_deductions (payrollData employee wd ad ld oh))
  = if Qle_bool (grossPay (payrollData employee wd ad ld oh)) 21000
    then (grossPay (payrollData employee wd ad ld oh) * (75 # 10000))%Q
    else 0%Q.
Proof. reflexivity. Qed.

Lemma tax_payrollData (employee : Employee) (wd ad ld : Z) (oh : Q) :
  tax (pd_deductions (payrollData employee wd ad ld oh))
  = calculateTax (grossPay (payrollData employee wd ad ld oh)).
Proof. reflexivity. Qed.



(** X4.  In every breakdown the calculator returns, the provident fund is
    at most 1800 and at most 12% of the gross pay, the ESI is at most
    157.50 and is nothing above a gross pay of 21000, and the tax is not
    negative. *)
Theorem calculatePayroll_statutory_bounds
    (db : DB) (employeeId : ObjectId) (month year : Z) (b : PayrollData) :
  calculatePayroll db employeeId month year = Returns b ->
  (pf (pd_deductions b) <= 1800
   /\ pf (pd_deductions b) <= grossPay b * (12 # 100)
   /\ esi (pd_deductions b) <= 1575 # 10
   /\ (21000 < grossPay b -> esi (pd_deductions b) == 0)
   /\ 0 <= tax (pd_deductions b))%Q.
Proof.
  intros H. apply calculatePayroll_Returns in H.
  destruct H as (employee & wd & ad & ld & oh & _ & ->).
  rewrite pf_payrollData, esi_payrollData, tax_payrollData.
  set (g := grossPay (payrollData employee wd ad ld oh)).
  split; [apply Q.le_min_r |]. split; [apply Q.le_min_l |].
  split; [| split].
  - case_Qle; lra.
  - intros Hg. case_Qle; lra.
  - apply calculateTax_nonneg.
Qed.

Lemma calculatePayroll_statutory_bounds_witness :
  exists b,
    calculatePayroll Example.april2024 1 4 2024 = Returns b
    /\ (pf (pd_deductions b) <= 1800
        /\ pf (pd_deductions b) <= grossPay b * (12 # 100)
        /\ esi (pd_deductions b) <= 1575 # 10
        /\ esi (pd_deductions b) == 0
        /\ 0 <= tax (pd_deductions b))%Q.
Proof.
  eexists. split; [vm_compute; reflexivity |].
  destruct (calculatePayroll_statutory_bounds Example.april2024 1 4 2024 _ eq_refl)
    as (H1 & H2 & H3 & H4 & H5).
  split; [exact H1 |]. split; [exact H2 |]. split; [exact H3 |].
  split; [apply H4; reflexivity | exact H5].
Defined.



Lemma filter_andb {A : Type} (f g : A -> bool) (l : list A) :
  filter (fun x => f x && g x) l = filter g (filter f l).
Proof.
  induction l as [| x l IH]; cbn [filter]; [reflexivity |].
  destruct (f x); cbn [andb filter]; [rewrite IH; reflexivity | exact IH].
Qed.

(** X7.  The payroll of an employee reads the employee documents and the
    attendance and leave records of that employee only: two databases that
    agree on these give the same outcome, whatever the records of other
    employees and the stored payrolls are. *)
Theorem calculatePayroll_reads_own_records
    (db db' : DB) (employeeId : ObjectId) (month year : Z) :
  employees db' = employees db ->
  filter (fun a => a_employee a =? employeeId) (attendances db')
  = filter (fun a => a_employee a =? employeeId) (attendances db) ->
  filter (fun l => l_employee l =? employeeId) (leaves db')
  = filter (fun l => l_employee l =? employeeId) (leaves db) ->
  calculatePayroll db' employeeId month year = calculatePayroll db employeeId month year.
Proof.
  intros Hemp Hatt Hleave.
  assert (Ha : forall d s e,
             Attendance_find d employeeId s e
             = filter (fun a => (s <=? a_date a) && (a_date a <=? e)
                                && match checkInTime a with Some _ => true | None => false end)
                      (filter (fun a => a_employee a =? employeeId) (attendances d))).
  { intros d s e. unfold Attendance_find. rewrite <- filter_andb.
    apply filter_ext. intros a.
    destruct (a_employee a =? employeeId), (s <=? a_date a), (a_date a <=? e),
      (checkInTime a); reflexivity. }
  assert (Hl : forall d s e,
             Leave_find d employeeId s e
             = filter (fun l => match l_status l with leave_approved => true | _ => false end
                                && (startDate l <=? e) && (s <=? endDate l))
                      (filter (fun l => l_employee l =? employeeId) (leaves d))).
  { intros d s e. unfold Leave_find. rewrite <- filter_andb.
    apply filter_ext. intros l.
    destruct (l_employee l =? employeeId), (l_status l), (startDate l <=? e),
      (s <=? endDate l); reflexivity. }
  unfold calculatePayroll, Employee_findById. cbv zeta.
  rewrite !Ha, !Hl, Hemp, Hatt, Hleave. reflexivity.
Qed.

Lemma calculatePayroll_reads_own_records_witness :
  calculatePayroll Crowded.db 1 4 2024 = calculatePayroll Example.april2024 1 4 2024.
Proof.
  apply (calculatePayroll_reads_own_records Example.april2024 Crowded.db 1 4 2024);
    reflexivity.
Defined.

(** ** Leaves of whole days *)

(** X23.  When the approved leaves of the employee that overlap the pay
    period run from a midnight to a midnight, the leave days of the
    calculator are the days of the period that fall inside these leaves:
    a leave that spans two months counts with its days of this month
    only. *)
Theorem calculatePayroll_leaveDays_whole_days
    (db : DB) (employee : Employee) (employeeId : ObjectId) (month year : Z) :
  Employee_findById db employeeId = Some employee ->
  validPeriod year month ->
  (forall leave,
      In leave (leaves db) ->
      approvedOverlapping employeeId (newDate year (month - 1) 1) (newDate year month 0) leave
      = true ->
      wholeDayLeave leave) ->
  exists b,
    calculatePayroll db employeeId month year = Returns b
    /\ leaveDays b
       = spec_leaveDays (leaves db) employeeId (newDate year (month - 1) 1)
           (newDate year month 0).
Proof.
  intros Hemp _ Hwhole. unfold calculatePayroll. cbv zeta. rewrite Hemp.
  eexists. split; [reflexivity |].
  cbn [leaveDays payrollData]. rewrite fold_left_sum, Z.add_0_l.
  unfold spec_leaveDays. f_equal.
  change (Leave_find db employeeId (newDate year (month - 1) 1) (newDate year month 0))
    with (filter (approvedOverlapping employeeId (newDate year (month - 1) 1)
                    (newDate year month 0)) (leaves db)).
  apply map_ext_in. intros leave Hin. apply filter_In in Hin. destruct Hin as [Hin Hov].
  specialize (Hwhole leave Hin Hov).
  unfold newDate in *. cbv zeta in *.
  set (yr := if (0 <=? year) && (year <=? 99) then 1900 + year else year) in *.
  pose proof (MakeDay_month_length yr month) as Hlen.
  apply (leaveDaysOf_daysInside _ _ employeeId); [lia | exact Hwhole | exact Hov].
Qed.

Lemma calculatePayroll_leaveDays_whole_days_witness :
  exists b,
    calculatePayroll LeaveExample.db 1 4 2024 = Returns b
    /\ leaveDays b
       = spec_leaveDays (leaves LeaveExample.db) 1 (newDate 2024 (4 - 1) 1) (newDate 2024 4 0).
Proof.
  apply (calculatePayroll_leaveDays_whole_days LeaveExample.db Example.employee22000 1 4 2024).
  - reflexivity.
  - split; reflexivity.
  - intros leave [<- | [<- | [<- | []]]] _; repeat split; vm_compute; congruence.
Defined.

(** The two approved leaves of [LeaveExample] count 3 days and, of the 5
    days of the leave that runs into May, the 2 days of April. *)
Lemma calculatePayroll_leaveDays_example :
  exists b,
    calculatePayroll LeaveExample.db 1 4 2024 = Returns b
    /\ leaveDays b = 5
    /\ map days (leaves LeaveExample.db) = [3; 5; 5]
    /\ map (daysInside (newDate 2024 3 1) (newDate 2024 4 0)) (leaves LeaveExample.db)
       = [3; 2; 5].
Proof.
  eexists. split; [vm_compute; reflexivity |]. repeat split.
Qed.

(** * Pagination *)

Lemma Math_ceil_div (a b : Z) :
  0 < b -> Math_ceil (inject_Z a / inject_Z b) = - ((- a) / b).
Proof.
  intros Hb. destruct b as [| p | p]; try lia.
  unfold Math_ceil, Qceiling, Qfloor, Qdiv, Qinv, Qmult, Qopp, inject_Z.
  cbn [Qnum Qden]. rewrite Z.mul_1_r, Pos.mul_1_l. reflexivity.
Qed.

Lemma ceil_div_spec (a b : Z) :
  0 < b -> (- ((- a) / b) - 1) * b < a <= - ((- a) / b) * b.
Proof.
  intros Hb. Z.div_mod_to_equations. nia.
Qed.

Lemma parseInt_number_small (n : Z) :
  Z.abs n <= Pagination.bound -> Pagination.parseInt_number (Some n) = Some (Some n).
Proof.
  intros Hn. unfold Pagination.parseInt_number, Pagination.bound in *.
  destruct (Z.ltb_spec (Z.abs n) 1000000000000000000000); [reflexivity | lia].
Qed.

(** X16.  For a page, a limit and a count of at most [bound], the count
    not negative, [calculatePagination] gives a page of at least 1, a
    limit between 1 and 100, the skip of the pages before, and the least
    number of pages that hold all items; [hasNextPage] tells whether items
    lie beyond the page, [hasPrevPage] whether the page is not the
    first. *)
Theorem calculatePagination_numeric (p l t : Z) :
  Z.abs p <= Pagination.bound ->
  Z.abs l <= Pagination.bound ->
  0 <= t <= Pagination.bound ->
  exists p' n tp,
    Pagination.calculatePagination (Some p) (Some l) t
    = Some {| Pagination.page := Some p';
              Pagination.limit := Some n;
              Pagination.skip := Some ((p' - 1) * n);
              Pagination.totalPages := Some tp;
              Pagination.totalItems := t;
              Pagination.hasNextPage := p' <? tp;
              Pagination.hasPrevPage := 1 <? p' |}
    /\ p' = Z.max 1 p /\ n = Z.min 100 (Z.max 1 l)
    /\ 1 <= p' /\ 1 <= n <= 100 /\ 0 <= (p' - 1) * n
    /\ 0 <= tp /\ (tp - 1) * n < t <= tp * n
    /\ (p' < tp <-> (p' - 1) * n + n < t).
Proof.
  intros Hp0 Hl0 [Ht _].
  exists (Z.max 1 p), (Z.min 100 (Z.max 1 l)),
    (Math_ceil (inject_Z t / inject_Z (Z.min 100 (Z.max 1 l)))).
  split.
  { unfold Pagination.calculatePagination.
    rewrite (parseInt_number_small p Hp0), (parseInt_number_small l Hl0). reflexivity. }
  set (p' := Z.max 1 p). set (n := Z.min 100 (Z.max 1 l)).
  assert (Hp : 1 <= p') by (unfold p'; lia).
  assert (Hn : 1 <= n <= 100) by (unfold n; lia).
  rewrite Math_ceil_div by lia.
  pose proof (ceil_div_spec t n ltac:(lia)) as Hc.
  set (tp := - (- t / n)) in *.
  repeat match goal with |- _ /\ _ => split end; try reflexivity; try lia; try nia.
Qed.

Lemma calculatePagination_numeric_witness :
  exists p' n tp,
    Pagination.calculatePagination (Some 0) (Some 500) 250
    = Some {| Pagination.page := Some p';
              Pagination.limit := Some n;
              Pagination.skip := Some ((p' - 1) * n);
              Pagination.totalPages := Some tp;
              Pagination.totalItems := 250;
              Pagination.hasNextPage := p' <? tp;
              Pagination.hasPrevPage := 1 <? p' |}
    /\ p' = 1 /\ n = 100 /\ (tp - 1) * n < 250 <= tp * n.
Proof.
  assert (H0 : Z.abs 0 <= Pagination.bound) by (vm_compute; discriminate).
  assert (H500 : Z.abs 500 <= Pagination.bound) by (vm_compute; discriminate).
  assert (H250 : 0 <= 250 <= Pagination.bound) by (split; vm_compute; discriminate).
  destruct (calculatePagination_numeric 0 500 250 H0 H500 H250)
    as (p' & n & tp & Heq & Hp & Hn & _ & _ & _ & _ & Htp & _).
  exists p', n, tp. repeat split; try assumption; lia.
Defined.

(** X18.  [getPaginationOptions] gives, for every page and limit of the
    query that are not a number or are at most [bound], a page of at least
    1, a limit between 1 and 100 and the skip of the pages before; a
    missing, zero or non-numeric page counts as 1, a missing, zero or
    non-numeric limit as 10.  On numbers with a limit other than 0 it
    agrees with [calculatePagination]. *)
Theorem getPaginationOptions_bounds (queryPage queryLimit : Pagination.Num) :
  Pagination.small queryPage ->
  Pagination.small queryLimit ->
  let o := Pagination.getPaginationOptions queryPage queryLimit in
  (1 <= Pagination.o_page o
   /\ 1 <= Pagination.o_limit o <= 100
   /\ Pagination.o_skip o = (Pagination.o_page o - 1) * Pagination.o_limit o
   /\ 0 <= Pagination.o_skip o)
  /\ ((queryPage = None \/ queryPage = Some 0) -> Pagination.o_page o = 1)
  /\ ((queryLimit = None \/ queryLimit = Some 0) -> Pagination.o_limit o = 10)
  /\ (forall p l t,
         queryPage = Some p -> queryLimit = Some l -> l <> 0 ->
         exists pg,
           Pagination.calculatePagination queryPage queryLimit t = Some pg
           /\ Pagination.page pg = Some (Pagination.o_page o)
           /\ Pagination.limit pg = Some (Pagination.o_limit o)
           /\ Pagination.skip pg = Some (Pagination.o_skip o)).
Proof.
  intros Hsp Hsl. cbv zeta. unfold Pagination.getPaginationOptions. cbv zeta.
  cbn [Pagination.o_page Pagination.o_limit Pagination.o_skip].
  split; [repeat split; try lia; nia |].
  split; [intros [-> | ->]; reflexivity |].
  split; [intros [-> | ->]; reflexivity |].
  intros p l t -> -> Hl. cbn [Pagination.small] in Hsp, Hsl.
  unfold Pagination.calculatePagination.
  rewrite (parseInt_number_small p Hsp), (parseInt_number_small l Hsl).
  eexists. split; [reflexivity |].
  cbn [Pagination.page Pagination.limit Pagination.skip
         Pagination.max_num Pagination.min_num option_map].
  assert (Hl' : Pagination.orDefault (Some l) 10 = l) by (destruct l; [lia | reflexivity ..]).
  assert (Hp' : Z.max 1 (Pagination.orDefault (Some p) 1) = Z.max 1 p)
    by (destruct p; reflexivity).
  rewrite Hl', Hp'. repeat split.
Qed.

Lemma getPaginationOptions_bounds_witness :
  Pagination.o_page (Pagination.getPaginationOptions None (Some 0)) = 1
  /\ Pagination.o_limit (Pagination.getPaginationOptions None (Some 0)) = 10.
Proof.
  assert (H0 : Pagination.small (Some 0)) by (vm_compute; discriminate).
  destruct (getPaginationOptions_bounds None (Some 0) I H0) as (_ & Hp & Hl & _).
  split; [apply Hp; left; reflexivity | apply Hl; right; reflexivity].
Defined.

(** * The end of the pay period *)

Lemma newDate_next_day (year monthIndex date : Z) :
  newDate year monthIndex (date + 1) = newDate year monthIndex date + msPerDay.
Proof. unfold newDate, MakeDay. cbv zeta. ring. Qed.

Lemma Attendance_find_cons_out (db : DB) (r : Attendance) (employeeId : ObjectId)
    (startD endD : Z) :
  a_date r < startD \/ endD < a_date r ->
  Attendance_find (withAttendances db (r :: attendances db)) employeeId startD endD
  = Attendance_find db employeeId startD endD.
Proof.
  intros Hout. unfold Attendance_find. cbn [attendances withAttendances filter].
  replace ((a_employee r =? employeeId) && (startD <=? a_date r) && (a_date r <=? endD)
           && match checkInTime r with Some _ => true | None => false end)
    with false; [reflexivity |].
  destruct Hout as [Hlt | Hgt].
  - apply Z.leb_gt in Hlt. rewrite Hlt.
    rewrite andb_false_r. reflexivity.
  - apply Z.leb_gt in Hgt. rewrite Hgt.
    rewrite andb_false_r. reflexivity.
Qed.

(** X22.  The pay period ends at the midnight that begins the last day of
    the month.  An attendance record dated later on that day (any instant
    of the day but its first) is counted neither for that month nor for the
    next: the payroll of both months is the same with and without it. *)
Theorem attendance_on_last_day_not_counted
    (db : DB) (r : Attendance) (employeeId : ObjectId) (month year : Z) :
  newDate year month 0 < a_date r < newDate year month 1 ->
  newDate year month 1 = newDate year month 0 + msPerDay
  /\ calculatePayroll (withAttendances db (r :: attendances db)) employeeId month year
     = calculatePayroll db employeeId month year
  /\ calculatePayroll (withAttendances db (r :: attendances db)) employeeId (month + 1) year
     = calculatePayroll db employeeId (month + 1) year.
Proof.
  intros [Hafter Hbefore].
  split; [apply (newDate_next_day year month 0) |].
  unfold calculatePayroll. cbv zeta.
  replace (month + 1 - 1) with month by lia.
  rewrite !Attendance_find_cons_out by (first [right; exact Hafter | left; exact Hbefore]).
  split; reflexivity.
Qed.

Lemma attendance_on_last_day_not_counted_witness :
  calculatePayroll
    (withAttendances Example.april2024 (LastDay.record :: attendances Example.april2024))
    1 4 2024
  = calculatePayroll Example.april2024 1 4 2024.
Proof.
  apply (attendance_on_last_day_not_counted Example.april2024 LastDay.record 1 4 2024).
  split; reflexivity.
Defined.
